(** * DeltaTracker: record normalizer and dual-mode search

    A shallow embedding of the TypeScript sources
    - [src/utils/excelParser.ts] (parseExcelFiles),
    - [src/App.tsx] (handleFiles, the search effect, handleReset),
    - [src/components/DropZone] (handleDrop, handleFileInput),
    - [src/types.ts] (TranslationRecord).

    Conventions of the embedding.
    - A JavaScript string is a [string] whose characters are read as the
      code units U+0000..U+00FF.  Case mapping and white space follow
      ECMAScript on that range.  The two letter-case foldings the program
      uses, [toLowerCase] on strings and the folding of the flag [i] of a
      regular expression, are kept apart: no statement identifies them.
    - A numeric cell is given by the text [String] prints for it, so that
      integers of any size, fractions and exponent forms are all covered.
    - [Math.random] is an oracle [nat -> string]: the [n]-th call yields the
      text that [Math.random().toString(36).substr(2, 9)] produced; the
      number of calls made so far is threaded as explicit state.
    - The two libraries the program calls are collaborators.  [XLSX.read]
      followed by [sheet_to_json] is represented by its outcome, stored in
      the file ([None] when it throws).  [Fuse.search] is a parameter.
    - React state is an explicit record; event handlers and the effect are
      functions on it. *)

From Stdlib Require Import Bool Arith Lia List NArith.
From Stdlib Require Import Ascii String DecimalString DecimalNat DecimalFacts.
Import ListNotations.

Local Open Scope string_scope.
Local Open Scope bool_scope.

(* ================================================================== *)
(** ** JavaScript string primitives *)
(* ================================================================== *)

Module JS.

(** WhiteSpace and LineTerminator code points below U+0100:
    TAB, LF, VT, FF, CR, SP and NBSP. *)
Definition isWhiteSpace (c : ascii) : bool :=
  let n := N_of_ascii c in
  ((9 <=? n) && (n <=? 13) || (n =? 32) || (n =? 160))%N.

(** [String.prototype.toLowerCase] on the code units below U+0100, one
    unit at a time: A..Z and the Latin-1 capitals U+00C0..U+00DE (without
    the multiplication sign).  This is the folding of the equality tests of
    the search; the regular expression has its own ([RegExp.Canonicalize]),
    and past U+00FF the two part ways (U+212A lower-cases to k, which the
    flag [i] does not match with k). *)
Definition toLowerChar (c : ascii) : ascii :=
  let n := N_of_ascii c in
  if ((65 <=? n) && (n <=? 90) ||
      (192 <=? n) && (n <=? 222) && negb (n =? 215))%N
  then ascii_of_N (n + 32) else c.

Fixpoint toLowerCase (s : string) : string :=
  match s with
  | EmptyString => EmptyString
  | String c s' => String (toLowerChar c) (toLowerCase s')
  end.

Fixpoint trimStart (s : string) : string :=
  match s with
  | EmptyString => EmptyString
  | String c s' => if isWhiteSpace c then trimStart s' else s
  end.

Fixpoint trimEnd (s : string) : string :=
  match s with
  | EmptyString => EmptyString
  | String c s' =>
      match trimEnd s' with
      | EmptyString => if isWhiteSpace c then EmptyString
                       else String c EmptyString
      | t => String c t
      end
  end.

Definition trim (s : string) : string := trimEnd (trimStart s).

(** [s.startsWith(p)] *)
Fixpoint startsWith (p s : string) : bool :=
  match p, s with
  | EmptyString, _ => true
  | String a p', String b s' => Ascii.eqb a b && startsWith p' s'
  | String _ _, EmptyString => false
  end.

(** [s.includes(p)] *)
Fixpoint includes (p s : string) : bool :=
  startsWith p s ||
  match s with
  | EmptyString => false
  | String _ s' => includes p s'
  end.

(** [s.endsWith(p)] *)
Fixpoint endsWith (p s : string) : bool :=
  String.eqb p s ||
  match s with
  | EmptyString => false
  | String _ s' => endsWith p s'
  end.

(** Template-literal rendering of an array index. *)
Definition String_of_nat (n : nat) : string :=
  NilZero.string_of_uint (Nat.to_uint n).

(** A string is falsy exactly when it is empty. *)
Definition truthy_string (s : string) : bool :=
  match s with EmptyString => false | _ => true end.

End JS.

(* ================================================================== *)
(** ** Data model ([src/types.ts]) and the tabular input *)
(* ================================================================== *)

Record TranslationRecord := mkRecord {
  id : string;
  taskName : string;
  originalId : string;
  key : string;
  sourceText : string;
  notes : list (string * string)
}.

(** A cell value as [sheet_to_json] delivers it with [header: 1].  A
    number is given by the text [String] prints for it, which is never
    empty: its first character [lead] and the rest [more] ("7", "-12",
    "1.5", "1e+21", "NaN"; zero of either sign prints "0"). *)
Inductive Cell :=
| CellStr (s : string)
| CellNum (lead : ascii) (more : string)
| CellBool (b : bool)
| CellUndef.

Definition Row := list Cell.

(** One sheet: its name and its rows. *)
Definition Sheet := (string * list Row)%type.

(** [workbook.SheetNames] paired with the rows of each sheet. *)
Definition Workbook := list Sheet.

(** A file handed to the importer: its name and what tabularization gives
    for it, [None] when reading or [XLSX.read] throws. *)
Record File := mkFile {
  name : string;
  tabularized : option Workbook
}.

(** JavaScript truthiness of a cell ([row[i] ? ... : ...]): the empty
    string, the numbers 0 and NaN, [false] and [undefined] are falsy. *)
Definition truthy (c : Cell) : bool :=
  match c with
  | CellStr s => JS.truthy_string s
  | CellNum lead more =>
      negb ((String lead more =? "0") || (String lead more =? "NaN"))
  | CellBool b => b
  | CellUndef => false
  end.

(** [String(row[i])] *)
Definition String_ (c : Cell) : string :=
  match c with
  | CellStr s => s
  | CellNum lead more => String lead more
  | CellBool true => "true"
  | CellBool false => "false"
  | CellUndef => "undefined"
  end.

(** [row[i]]: [undefined] past the end. *)
Definition at_ (row : Row) (i : nat) : Cell := nth i row CellUndef.

(* ================================================================== *)
(** ** [src/utils/excelParser.ts] *)
(* ================================================================== *)

Module ExcelParser.

Definition keyVal (row : Row) : string :=
  if truthy (at_ row 1) then JS.trim (String_ (at_ row 1)) else "".

Definition sourceVal (row : Row) : string :=
  if truthy (at_ row 2) then JS.trim (String_ (at_ row 2)) else "".

(** The header test of lines 37-39. *)
Definition isHeaderRow (rowIndex : nat) (row : Row) : bool :=
  (rowIndex <? 5)%nat &&
  ((JS.toLowerCase (keyVal row) =? "key") ||
   (JS.toLowerCase (keyVal row) =? "id")) &&
  ((JS.toLowerCase (sourceVal row) =? "value") ||
   (JS.toLowerCase (sourceVal row) =? "source") ||
   JS.includes "text" (JS.toLowerCase (sourceVal row))).

(** The loop [for (let i = 3; i < row.length; i++)] over the cells that
    remain from column [i] on. *)
Fixpoint collectNotes (i : nat) (cells : list Cell) : list (string * string) :=
  match cells with
  | [] => []
  | c :: cells' =>
      if truthy c
      then ("col_" ++ JS.String_of_nat i, String_ c) :: collectNotes (S i) cells'
      else collectNotes (S i) cells'
  end.

Definition makeId (sheetName : string) (rowIndex : nat) (suffix : string)
  : string :=
  sheetName ++ "-" ++ JS.String_of_nat rowIndex ++ "-" ++ suffix.

(** Body of the row callback: [None] for each early [return], otherwise the
    record that is pushed.  [suffix] is the random part of the id. *)
Definition rowRecord (sheetName : string) (rowIndex : nat) (row : Row)
    (suffix : string) : option TranslationRecord :=
  if (List.length row <? 2)%nat then None
  else if isHeaderRow rowIndex row then None
  else if negb (JS.truthy_string (keyVal row)) &&
          negb (JS.truthy_string (sourceVal row)) then None
  else Some {|
    id := makeId sheetName rowIndex suffix;
    taskName := sheetName;
    originalId := if truthy (at_ row 0) then String_ (at_ row 0) else "";
    key := keyVal row;
    sourceText := sourceVal row;
    notes := collectNotes 3 (skipn 3 row)
  |}.

Section Parser.

Variable random : nat -> string.

(** [allRecords] together with the number of [Math.random] calls so far. *)
Definition Acc := (list TranslationRecord * nat)%type.

Definition pushRow (sheetName : string) (rowIndex : nat) (row : Row)
    (acc : Acc) : Acc :=
  match rowRecord sheetName rowIndex row (random (snd acc)) with
  | None => acc
  | Some r => ((fst acc ++ [r])%list, S (snd acc))
  end.

(** [jsonData.forEach((row, rowIndex) => ...)] from index [rowIndex] on. *)
Fixpoint forEachRow (sheetName : string) (rowIndex : nat) (rows : list Row)
    (acc : Acc) : Acc :=
  match rows with
  | [] => acc
  | row :: rows' =>
      forEachRow sheetName (S rowIndex) rows' (pushRow sheetName rowIndex row acc)
  end.

(** [workbook.SheetNames.forEach(...)] *)
Fixpoint forEachSheet (sheets : Workbook) (acc : Acc) : Acc :=
  match sheets with
  | [] => acc
  | (sheetName, rows) :: sheets' =>
      forEachSheet sheets' (forEachRow sheetName 0 rows acc)
  end.

(** [for (const file of files)] followed by [return allRecords].  A file
    that throws rejects the promise ([None]) and the records gathered so
    far are lost with it; the random numbers drawn stay drawn. *)
Fixpoint forEachFile (files : list File) (acc : Acc)
  : option (list TranslationRecord) * nat :=
  match files with
  | [] => (Some (fst acc), snd acc)
  | f :: files' =>
      match tabularized f with
      | None => (None, snd acc)
      | Some workbook => forEachFile files' (forEachSheet workbook acc)
      end
  end.

(** [parseExcelFiles(files)], started when [draws] random numbers have been
    drawn: the outcome of the promise and the new count. *)
Definition parseExcelFiles (draws : nat) (files : list File)
  : option (list TranslationRecord) * nat :=
  forEachFile files ([], draws).

End Parser.

End ExcelParser.

(* ================================================================== *)
(** ** The part of [RegExp] the search uses

    Patterns built from literal characters, identity escapes, character
    classes without ranges or negation ([\s] allowed inside), groups,
    alternation and the assertions [^] and [$]; matching with the flag
    [i] and no other flag.  The constructor answers [None] for a pattern
    outside this part (where JavaScript throws or uses syntax not
    covered here). *)
(* ================================================================== *)

Module RegExp.

Local Open Scope char_scope.

(** SyntaxCharacter of the ECMAScript pattern grammar. *)
Definition syntaxCharacters : list ascii :=
  ["^"; "$"; "\"; "."; "*"; "+"; "?"; "("; ")"; "["; "]"; "{"; "}"; "|"].

Definition isSyntaxCharacter (c : ascii) : bool :=
  existsb (Ascii.eqb c) syntaxCharacters.

(** The characters [\s] stands for. *)
Definition whiteSpaceChars : list ascii :=
  map ascii_of_N [9; 10; 11; 12; 13; 32; 160]%N.

(** Canonicalize under the flag [i] without [u], on the code units below
    U+0100: the upper-case mapping of one code unit, kept when it is a
    single code unit.  U+00B5 and U+00FF map outside the range (to U+039C
    and U+0178); U+00DF maps to two letters and is therefore left alone.
    It is a folding of its own, by upper case and unit by unit, and is
    nowhere exchanged for [JS.toLowerCase]. *)
Definition Canonicalize (c : ascii) : N :=
  let n := N_of_ascii c in
  if ((97 <=? n) && (n <=? 122) ||
      (224 <=? n) && (n <=? 254) && negb (n =? 247))%N then (n - 32)%N
  else if (n =? 181)%N then 924%N
  else if (n =? 255)%N then 376%N
  else n.

Inductive Token :=
| TChar (c : ascii)
| TClass (cs : list ascii)
| TOpen
| TClose
| TBar
| TCaret
| TDollar.

(** The lexer.  [inClass = Some acc] while inside brackets, [acc] being the
    members read so far. *)
Fixpoint lex (inClass : option (list ascii)) (s : string)
  : option (list Token) :=
  match s with
  | EmptyString =>
      match inClass with None => Some [] | Some _ => None end
  | String c rest =>
      match inClass with
      | Some acc =>
          if Ascii.eqb c "]" then option_map (cons (TClass acc)) (lex None rest)
          else if Ascii.eqb c "\" then
            match rest with
            | String d rest' =>
                if Ascii.eqb d "s" then lex (Some (acc ++ whiteSpaceChars)%list) rest'
                else if isSyntaxCharacter d then lex (Some (acc ++ [d])%list) rest'
                else None
            | EmptyString => None
            end
          else if Ascii.eqb c "^" && match acc with [] => true | _ => false end
          then None
          else if Ascii.eqb c "-" then
            if match acc with [] => true | _ => false end
               || JS.startsWith "]" rest
            then lex (Some (acc ++ [c])%list) rest
            else None
          else lex (Some (acc ++ [c])%list) rest
      | None =>
          if Ascii.eqb c "\" then
            match rest with
            | String d rest' =>
                if isSyntaxCharacter d
                then option_map (cons (TChar d)) (lex None rest')
                else None
            | EmptyString => None
            end
          else if Ascii.eqb c "[" then lex (Some []) rest
          else if Ascii.eqb c "(" then option_map (cons TOpen) (lex None rest)
          else if Ascii.eqb c ")" then option_map (cons TClose) (lex None rest)
          else if Ascii.eqb c "|" then option_map (cons TBar) (lex None rest)
          else if Ascii.eqb c "^" then option_map (cons TCaret) (lex None rest)
          else if Ascii.eqb c "$" then option_map (cons TDollar) (lex None rest)
          else if isSyntaxCharacter c then None
          else option_map (cons (TChar c)) (lex None rest)
      end
  end.

Inductive Regex :=
| REmpty
| RChar (c : ascii)
| RClass (cs : list ascii)
| RBol
| REol
| RSeq (r1 r2 : Regex)
| RAlt (r1 r2 : Regex)
| RGroup (r : Regex).

(** A disjunction being read: the alternatives already closed by a bar and
    the alternative in progress. *)
Record Frame := mkFrame {
  closed : option Regex;
  current : Regex
}.

Definition emptyFrame : Frame := mkFrame None REmpty.

Definition disjunction (f : Frame) : Regex :=
  match closed f with
  | None => current f
  | Some d => RAlt d (current f)
  end.

Definition addTerm (t : Regex) (f : Frame) : Frame :=
  mkFrame (closed f) (RSeq (current f) t).

(** The parser, with the enclosing disjunctions on a stack. *)
Fixpoint parseTokens (ts : list Token) (f : Frame) (stack : list Frame)
  : option Regex :=
  match ts with
  | [] => match stack with [] => Some (disjunction f) | _ => None end
  | t :: ts' =>
      match t with
      | TChar c => parseTokens ts' (addTerm (RChar c) f) stack
      | TClass cs => parseTokens ts' (addTerm (RClass cs) f) stack
      | TCaret => parseTokens ts' (addTerm RBol f) stack
      | TDollar => parseTokens ts' (addTerm REol f) stack
      | TBar => parseTokens ts' (mkFrame (Some (disjunction f)) REmpty) stack
      | TOpen => parseTokens ts' emptyFrame (f :: stack)
      | TClose =>
          match stack with
          | [] => None
          | g :: stack' =>
              parseTokens ts' (addTerm (RGroup (disjunction f)) g) stack'
          end
      end
  end.

(** [new RegExp(pattern, 'i')] *)
Definition RegExp (pattern : string) : option Regex :=
  match lex None pattern with
  | None => None
  | Some ts => parseTokens ts emptyFrame []
  end.

(** A position in the input: the index reached and the input from there. *)
Definition MatchState := (nat * string)%type.

Definition charSetMatches (cs : list ascii) (ch : ascii) : bool :=
  existsb (fun a => (Canonicalize a =? Canonicalize ch)%N) cs.

(** The backtracking matcher, in continuation-passing style. *)
Fixpoint matcher (r : Regex) (x : MatchState) (k : MatchState -> bool)
  : bool :=
  match r with
  | REmpty => k x
  | RChar c =>
      match snd x with
      | String ch rest =>
          (Canonicalize ch =? Canonicalize c)%N && k (S (fst x), rest)
      | EmptyString => false
      end
  | RClass cs =>
      match snd x with
      | String ch rest => charSetMatches cs ch && k (S (fst x), rest)
      | EmptyString => false
      end
  | RBol => (fst x =? 0)%nat && k x
  | REol => match snd x with EmptyString => k x | _ => false end
  | RSeq r1 r2 => matcher r1 x (fun y => matcher r2 y k)
  | RAlt r1 r2 => matcher r1 x k || matcher r2 x k
  | RGroup r1 => matcher r1 x k
  end.

(** Try every start index from [i] on. *)
Fixpoint execFrom (r : Regex) (i : nat) (rest : string) : bool :=
  matcher r (i, rest) (fun _ => true) ||
  match rest with
  | String _ rest' => execFrom r (S i) rest'
  | EmptyString => false
  end.

(** [regex.test(s)] for a regex without the flags [g] and [y]. *)
Definition test (r : Regex) (s : string) : bool := execFrom r 0 s.

End RegExp.

(* ================================================================== *)
(** ** [src/components/DropZone] *)
(* ================================================================== *)

Module DropZone.

(** The filter of [handleDrop]. *)
Definition hasSheetExtension (f : File) : bool :=
  JS.endsWith ".xlsx" (name f) || JS.endsWith ".xls" (name f) ||
  JS.endsWith ".csv" (name f).

(** [handleDrop]: the argument [onFilesSelected] is called with, [None]
    when it is not called. *)
Definition handleDrop (isProcessing : bool) (dataTransferFiles : list File)
  : option (list File) :=
  if isProcessing then None
  else
    let files := filter hasSheetExtension dataTransferFiles in
    if (0 <? List.length files)%nat then Some files else None.

(** [handleFileInput]; [targetFiles] is [e.target.files], possibly null. *)
Definition handleFileInput (targetFiles : option (list File))
  : option (list File) :=
  match targetFiles with
  | Some files => if (0 <? List.length files)%nat then Some files else None
  | None => None
  end.

End DropZone.

(* ================================================================== *)
(** ** [src/App.tsx] *)
(* ================================================================== *)

Module App.

(** [ParseStats] without [parseTimeMs], which is a wall-clock reading. *)
Record ParseStats := mkStats {
  totalFiles : nat;
  totalSheets : nat;
  totalRecords : nat
}.

(** The component state, and [randomDraws], the number of [Math.random]
    calls made so far in the session. *)
Record AppState := mkState {
  records : list TranslationRecord;
  isProcessing : bool;
  searchQuery : string;
  stats : option ParseStats;
  exactMatches : list TranslationRecord;
  fuzzyMatches : list TranslationRecord;
  debouncedQuery : string;
  randomDraws : nat
}.

Definition initialState : AppState :=
  mkState [] false "" None [] [] "" 0.

Definition setIsProcessing (b : bool) (st : AppState) : AppState :=
  mkState (records st) b (searchQuery st) (stats st)
          (exactMatches st) (fuzzyMatches st) (debouncedQuery st)
          (randomDraws st).

Definition setSearchQuery (q : string) (st : AppState) : AppState :=
  mkState (records st) (isProcessing st) q (stats st)
          (exactMatches st) (fuzzyMatches st) (debouncedQuery st)
          (randomDraws st).

Definition setDebouncedQuery (q : string) (st : AppState) : AppState :=
  mkState (records st) (isProcessing st) (searchQuery st) (stats st)
          (exactMatches st) (fuzzyMatches st) q (randomDraws st).

Definition setMatches (exact fuzzy : list TranslationRecord) (st : AppState)
  : AppState :=
  mkState (records st) (isProcessing st) (searchQuery st) (stats st)
          exact fuzzy (debouncedQuery st) (randomDraws st).

Definition setRandomDraws (n : nat) (st : AppState) : AppState :=
  mkState (records st) (isProcessing st) (searchQuery st) (stats st)
          (exactMatches st) (fuzzyMatches st) (debouncedQuery st) n.

(** [setRecords((prev) => [...prev, ...newRecords])] and [setStats]. *)
Definition commitRecords (nFiles : nat) (newRecords : list TranslationRecord)
    (st : AppState) : AppState :=
  mkState (records st ++ newRecords)%list (isProcessing st) (searchQuery st)
          (Some (mkStats nFiles
                   (List.length (nodup string_dec (map taskName newRecords)))
                   (List.length newRecords)))
          (exactMatches st) (fuzzyMatches st) (debouncedQuery st)
          (randomDraws st).

(** [escapeRegExp]: [str.replace(/[.*+?^${}()|[\]\\]/g, '\\$&')] *)
Definition escapeClass : list ascii :=
  ["."; "*"; "+"; "?"; "^"; "$"; "{"; "}"; "("; ")"; "|"; "["; "]"; "\"]%char.

Fixpoint escapeRegExp (str : string) : string :=
  match str with
  | EmptyString => EmptyString
  | String c str' =>
      if existsb (Ascii.eqb c) escapeClass
      then String "\" (String c (escapeRegExp str'))
      else String c (escapeRegExp str')
  end.

(** The pattern text of line 99. *)
Definition exactMatchPattern (escapedQuery : string) : string :=
  "(^|[\s._-])" ++ escapedQuery ++ "([\s._-]|$)".

(** The callback of [records.filter] in lines 101-114. *)
Definition isExact (normQuery : string) (exactMatchRegex : RegExp.Regex)
    (r : TranslationRecord) : bool :=
  if (JS.toLowerCase (key r) =? normQuery) ||
     (JS.toLowerCase (sourceText r) =? normQuery) then true
  else if RegExp.test exactMatchRegex (key r) ||
          RegExp.test exactMatchRegex (sourceText r) then true
  else false.

(** [new Set(ids)] as the list of its members, and [set.has(x)]. *)
Definition Set_has (s : list string) (x : string) : bool :=
  existsb (String.eqb x) s.

Section Component.

(** [Math.random().toString(36).substr(2, 9)] at each call. *)
Variable random : nat -> string.

(** [new Fuse(records, options).search(query)], items only, best first. *)
Variable Fuse_search :
  list TranslationRecord -> string -> list TranslationRecord.

(** The memoized index: [null] when there is no record. *)
Definition fuse (st : AppState)
  : option (string -> list TranslationRecord) :=
  match records st with
  | [] => None
  | _ => Some (Fuse_search (records st))
  end.

(** The two lists the effect computes in search mode, lines 84-125;
    [None] only if the [RegExp] constructor fails. *)
Definition searchLists (search : string -> list TranslationRecord)
    (recs : list TranslationRecord) (query : string)
  : option (list TranslationRecord * list TranslationRecord) :=
  let normQuery := JS.toLowerCase query in
  let escapedQuery := escapeRegExp query in
  match RegExp.RegExp (exactMatchPattern escapedQuery) with
  | None => None
  | Some exactMatchRegex =>
      let exact := filter (isExact normQuery exactMatchRegex) recs in
      let exactIds := map id exact in
      let fuseResults := search query in
      let fuzzy :=
        filter (fun item => negb (Set_has exactIds (id item))) fuseResults in
      Some (exact, fuzzy)
  end.

(** The search effect, lines 73-126.  An early [return] (and a throwing
    constructor) leaves both lists as they were. *)
Definition searchEffect (st : AppState) : AppState :=
  let query := JS.trim (debouncedQuery st) in
  if negb (JS.truthy_string query) then setMatches [] (records st) st
  else
    match fuse st with
    | None => st
    | Some search =>
        match searchLists search (records st) query with
        | None => st
        | Some (exact, fuzzy) => setMatches exact fuzzy st
        end
    end.

(** [handleFiles], lines 48-70, up to the state it leaves; the flag tells
    whether [setRecords] was called. *)
Definition handleFiles (files : list File) (st : AppState)
  : AppState * bool :=
  let st1 := setIsProcessing true st in
  match ExcelParser.parseExcelFiles random (randomDraws st1) files with
  | (Some newRecords, draws) =>
      (setIsProcessing false
         (commitRecords (List.length files) newRecords
            (setRandomDraws draws st1)), true)
  | (None, draws) =>
      (setIsProcessing false (setRandomDraws draws st1), false)
  end.

(** [handleReset], lines 129-135. *)
Definition handleReset (st : AppState) : AppState :=
  mkState [] (isProcessing st) "" None [] [] (debouncedQuery st)
          (randomDraws st).

(** What can happen to the component.  [Debounced q]: the debounce hook
    publishes [q]; the hook may publish any text. *)
Inductive Event :=
| FilesSelected (files : list File)
| QueryTyped (q : string)
| Debounced (q : string)
| ResetClicked.

(** One event, followed by the effect when one of its dependencies
    ([debouncedQuery], [records], [fuse]) has been set. *)
Definition step (st : AppState) (e : Event) : AppState :=
  match e with
  | FilesSelected files =>
      match handleFiles files st with
      | (st', true) => searchEffect st'
      | (st', false) => st'
      end
  | QueryTyped q => setSearchQuery q st
  | Debounced q =>
      if q =? debouncedQuery st then st
      else searchEffect (setDebouncedQuery q st)
  | ResetClicked => searchEffect (handleReset st)
  end.

Definition run (events : list Event) (st : AppState) : AppState :=
  fold_left step events st.

(** [search(q)] on a state: the pair of lists shown once the debounced
    query is [q] and the effect has run. *)
Definition search (q : string) (st : AppState)
  : list TranslationRecord * list TranslationRecord :=
  let st' := searchEffect (setDebouncedQuery q st) in
  (exactMatches st', fuzzyMatches st').

End Component.

End App.

(* ================================================================== *)
(** ** Vocabulary of the specification *)
(* ================================================================== *)

Module Spec.

(** The separator characters: white space, dot, underscore, dash. *)
Definition isSeparator (c : ascii) : bool :=
  JS.isWhiteSpace c || Ascii.eqb c "." || Ascii.eqb c "_" || Ascii.eqb c "-".

(** What precedes an occurrence: nothing, or text ending in a separator. *)
Definition boundedLeft (before : string) : Prop :=
  before = "" \/
  exists p c, before = p ++ String c "" /\ isSeparator c = true.

(** What follows an occurrence: nothing, or text starting with a separator. *)
Definition boundedRight (after : string) : Prop :=
  after = "" \/
  exists c p, after = String c p /\ isSeparator c = true.

(** Equal without regard to letter case in the sense of the flag [i] of a
    regular expression: of the same length and, unit by unit, with the same
    [Canonicalize].  This is not [toLowerCase] equality, and nothing below
    takes one for the other. *)
Fixpoint sameIgnoringCase (a b : string) : bool :=
  match a, b with
  | EmptyString, EmptyString => true
  | String x a', String y b' =>
      (RegExp.Canonicalize x =? RegExp.Canonicalize y)%N &&
      sameIgnoringCase a' b'
  | _, _ => false
  end.

(** [text] contains [q], case-insensitively, as a whole word. *)
Definition wholeWord (q text : string) : Prop :=
  exists before occurrence after,
    text = before ++ occurrence ++ after /\
    sameIgnoringCase occurrence q = true /\
    boundedLeft before /\ boundedRight after.

(** The exact-match condition of the specification for the trimmed query
    [q], written from its words: "lower-cased" is [toLowerCase],
    "case-insensitively" is [sameIgnoringCase]. *)
Definition exactMatch (q : string) (r : TranslationRecord) : Prop :=
  JS.toLowerCase (key r) = JS.toLowerCase q \/
  JS.toLowerCase (sourceText r) = JS.toLowerCase q \/
  wholeWord q (key r) \/ wholeWord q (sourceText r).

(** The candidate the specification takes from column [i] of a row (4.1):
    the cell stringified and trimmed, the empty text if the cell is
    absent. *)
Definition candidate (row : Row) (i : nat) : string :=
  match nth_error row i with
  | None => ""
  | Some CellUndef => ""
  | Some c => JS.trim (String_ c)
  end.

Definition keyCandidate (row : Row) : string := candidate row 1.

Definition sourceCandidate (row : Row) : string := candidate row 2.

(** The header rule of the specification (4.1, rule 2), on its own
    candidates. *)
Definition headerRow (rowIndex : nat) (row : Row) : bool :=
  (rowIndex <? 5)%nat &&
  ((JS.toLowerCase (keyCandidate row) =? "key") ||
   (JS.toLowerCase (keyCandidate row) =? "id")) &&
  ((JS.toLowerCase (sourceCandidate row) =? "value") ||
   (JS.toLowerCase (sourceCandidate row) =? "source") ||
   JS.includes "text" (JS.toLowerCase (sourceCandidate row))).

(** No id of the first list is the id of a record of the second. *)
Definition disjointById (exact fuzzy : list TranslationRecord) : Prop :=
  forall r1 r2, In r1 exact -> In r2 fuzzy -> id r1 <> id r2.

(** Both searchable fields are stored trimmed. *)
Definition storedTrimmed (r : TranslationRecord) : Prop :=
  JS.trim (key r) = key r /\ JS.trim (sourceText r) = sourceText r.

(** No dash in a text. *)
Fixpoint dashFree (s : string) : bool :=
  match s with
  | EmptyString => true
  | String c s' => negb (Ascii.eqb c "-") && dashFree s'
  end.

(** The texts [Math.random().toString(36).substr(2, 9)] can give: at most
    nine characters, each a digit or a lower-case letter. *)
Definition isBase36Digit (c : ascii) : bool :=
  let n := N_of_ascii c in
  ((48 <=? n) && (n <=? 57) || (97 <=? n) && (n <=? 122))%N.

Fixpoint allBase36 (s : string) : bool :=
  match s with
  | EmptyString => true
  | String c s' => isBase36Digit c && allBase36 s'
  end.

Definition isRandomSuffix (s : string) : bool :=
  (String.length s <=? 9)%nat && allBase36 s.

End Spec.

(* ================================================================== *)
(** ** The regular expression of the search, in closed form *)
(* ================================================================== *)

Module ExactRegex.

Import RegExp.

(** Every character. *)
Definition allAscii : list ascii := map ascii_of_nat (seq 0 256).

(** The members of the class [[\s._-]]. *)
Definition separatorChars : list ascii :=
  (whiteSpaceChars ++ ["."; "_"; "-"]%char)%list.

(** [r] followed by the characters of [s], one term each. *)
Fixpoint seqChars (r : Regex) (s : string) : Regex :=
  match s with
  | EmptyString => r
  | String c s' => seqChars (RSeq r (RChar c)) s'
  end.

Definition leftGroup : Regex :=
  RGroup (RAlt (RSeq REmpty RBol) (RSeq REmpty (RClass separatorChars))).

Definition rightGroup : Regex :=
  RGroup (RAlt (RSeq REmpty (RClass separatorChars)) (RSeq REmpty REol)).

(** The syntax tree the constructor builds for the query [q]. *)
Definition exactRegex (q : string) : Regex :=
  RSeq (seqChars (RSeq REmpty leftGroup) q) rightGroup.

(** Matching the characters of [q] one after the other. *)
Fixpoint matchChars (q : string) (x : MatchState) (k : MatchState -> bool)
  : bool :=
  match q with
  | EmptyString => k x
  | String c q' =>
      match snd x with
      | String ch rest =>
          (Canonicalize ch =? Canonicalize c)%N &&
          matchChars q' (S (fst x), rest) k
      | EmptyString => false
      end
  end.

End ExactRegex.

(* ================================================================== *)
(** ** Where the ids of a record list come from *)
(* ================================================================== *)

(** [Stamped random lo recs hi]: the ids of [recs] were made, in this
    order, with random draws whose numbers increase and lie between [lo]
    (included) and [hi] (excluded). *)
Inductive Stamped (random : nat -> string)
  : nat -> list TranslationRecord -> nat -> Prop :=
| Stamped_nil lo hi :
    lo <= hi -> Stamped random lo [] hi
| Stamped_cons lo hi d sheetName rowIndex r recs :
    lo <= d ->
    id r = ExcelParser.makeId sheetName rowIndex (random d) ->
    Stamped random (S d) recs hi ->
    Stamped random lo (r :: recs) hi.

(* ================================================================== *)
(** ** Sample data *)
(* ================================================================== *)

Module Examples.

(** The sheet of the end-to-end scenario, with a header row in front and
    an empty row behind. *)
Definition sheet1 : Sheet :=
  ("Sheet1",
   [ [CellStr "#"; CellStr "Key"; CellStr "Source"];
     [CellStr "1"; CellStr "greeting"; CellStr "Hello World"];
     [CellStr "2"; CellStr "farewell"; CellStr "Goodbye"];
     [CellStr "1"; CellStr ""; CellStr ""] ]).

Definition book : File := mkFile "book.xlsx" (Some [sheet1]).

(** The same workbook under a name with an upper-case extension. *)
Definition bookUpper : File := mkFile "BOOK.XLSX" (Some [sheet1]).

(** A row whose key cell is the number 0, and the same row with the key
    written as the text "0". *)
Definition zeroKeyRow : Row := [CellStr "1"; CellNum "0" ""; CellStr ""].

Definition zeroTextKeyRow : Row := [CellStr "1"; CellStr "0"; CellStr ""].

(** A file that cannot be read. *)
Definition broken : File := mkFile "broken.xlsx" None.

(** Random draws that are all different: "0", "1", "2", ... *)
Definition freshDraws (n : nat) : string := JS.String_of_nat n.

(** Random draws that repeat. *)
Definition repeatedDraws (n : nat) : string := "k3x9q2m1z".

(** The two records [book] yields under [freshDraws]. *)
Definition greeting : TranslationRecord :=
  mkRecord "Sheet1-1-0" "Sheet1" "1" "greeting" "Hello World" [].

Definition farewell : TranslationRecord :=
  mkRecord "Sheet1-2-1" "Sheet1" "2" "farewell" "Goodbye" [].

(** A stand-in for the fuzzy index: every record, in order. *)
Definition everyRecord (recs : list TranslationRecord) (query : string)
  : list TranslationRecord := recs.

End Examples.

(* ================================================================== *)
(** ** [src/components/ResultCard] *)
(* ================================================================== *)

Module ResultCard.

Definition borderColors : list string :=
  [ "border-l-[#002366]"; "border-l-[#B91C1C]"; "border-l-[#047857]";
    "border-l-[#D97706]"; "border-l-[#7E22CE]" ].

(** [borderColors[index % borderColors.length]]; [None] stands for
    [undefined]. *)
Definition accentColor (index : nat) : option string :=
  nth_error borderColors (index mod List.length borderColors).

(** [data.originalId && ...]: the ordinal badge is rendered. *)
Definition showsOriginalId (data : TranslationRecord) : bool :=
  JS.truthy_string (originalId data).

(** [data.key || <span>No Key</span>]: the placeholder is rendered. *)
Definition showsNoKey (data : TranslationRecord) : bool :=
  negb (JS.truthy_string (key data)).

(** [!data.sourceText && <span>Empty source text</span>] *)
Definition showsEmptySource (data : TranslationRecord) : bool :=
  negb (JS.truthy_string (sourceText data)).

(** The note line: rendered when [Object.keys(data.notes).length > 0], with
    the text [Object.values(data.notes).join(' | ')]. *)
Definition notesPreview (data : TranslationRecord) : option string :=
  match notes data with
  | [] => None
  | ns => Some (String.concat " | " (map snd ns))
  end.

End ResultCard.

(* ================================================================== *)
(** ** What the rendered screen of [src/App.tsx] offers *)
(* ================================================================== *)

Module Screen.

(** [searchQuery.trim().length > 0], line 138. *)
Definition isSearchMode (st : App.AppState) : bool :=
  (0 <? String.length (JS.trim (App.searchQuery st)))%nat.

(** [records.length === 0]: the drop zone is rendered in place of the
    search bar and the result lists, line 183. *)
Definition dropZoneShown (st : App.AppState) : bool :=
  match App.records st with [] => true | _ => false end.

(** [records.length > 0]: the header shows the Reset button, line 155. *)
Definition resetShown (st : App.AppState) : bool :=
  (0 <? List.length (App.records st))%nat.

(** The events the rendered controls can deliver in a state: files come
    from the drop zone, which is only rendered without records, is disabled
    while an import runs and never passes an empty list; the query input
    and the Reset button are only rendered with records. *)
Definition offers (st : App.AppState) (e : App.Event) : bool :=
  match e with
  | App.FilesSelected files =>
      dropZoneShown st && negb (App.isProcessing st) &&
      (0 <? List.length files)%nat
  | App.QueryTyped _ => negb (dropZoneShown st)
  | App.Debounced _ => true
  | App.ResetClicked => resetShown st
  end.

Section Session.

Variable random : nat -> string.
Variable Fuse_search :
  list TranslationRecord -> string -> list TranslationRecord.

(** Every event of the list is offered by the screen at its turn. *)
Fixpoint offered (events : list App.Event) (st : App.AppState) : bool :=
  match events with
  | [] => true
  | e :: events' =>
      offers st e && offered events' (App.step random Fuse_search st e)
  end.

End Session.

End Screen.

(* ================================================================== *)
(** ** Measures and relations used by the further properties *)
(* ================================================================== *)

Module Measure.

(** The number of rows of a workbook, all sheets together. *)
Definition workbookRows (workbook : Workbook) : nat :=
  list_sum (map (fun sheet => List.length (snd sheet)) workbook).

(** The number of rows of the files that can be tabularized. *)
Definition fileRows (files : list File) : nat :=
  list_sum (map (fun f => match tabularized f with
                          | Some workbook => workbookRows workbook
                          | None => 0
                          end) files).

(** The sheet names of the files that can be tabularized. *)
Definition sheetNames (files : list File) : list string :=
  flat_map (fun f => match tabularized f with
                     | Some workbook => map fst workbook
                     | None => []
                     end) files.

(** No separator character in a text. *)
Fixpoint separatorFree (s : string) : bool :=
  match s with
  | EmptyString => true
  | String c s' => negb (Spec.isSeparator c) && separatorFree s'
  end.

(** The same character, or the same letter A..Z once in upper and once in
    lower case. *)
Definition sameAsciiLetter (a b : ascii) : bool :=
  let n := N_of_ascii a in
  let m := N_of_ascii b in
  ((n =? m) ||
   ((65 <=? n) && (n <=? 90) && (m =? n + 32)) ||
   ((65 <=? m) && (m <=? 90) && (n =? m + 32)))%N.

(** Two texts that differ at most in the case of letters A..Z. *)
Fixpoint sameUpToAsciiCase (s t : string) : bool :=
  match s, t with
  | EmptyString, EmptyString => true
  | String a s', String b t' => sameAsciiLetter a b && sameUpToAsciiCase s' t'
  | _, _ => false
  end.

(** Two states that agree on everything but the fuzzy list. *)
Definition agreeButFuzzy (a b : App.AppState) : Prop :=
  App.records a = App.records b /\
  App.isProcessing a = App.isProcessing b /\
  App.searchQuery a = App.searchQuery b /\
  App.stats a = App.stats b /\
  App.exactMatches a = App.exactMatches b /\
  App.debouncedQuery a = App.debouncedQuery b /\
  App.randomDraws a = App.randomDraws b.

(** No [ResetClicked] among the events. *)
Definition noReset (events : list App.Event) : bool :=
  forallb (fun e => match e with App.ResetClicked => false | _ => true end)
          events.

End Measure.

(* ================================================================== *)
(** ** Facts about the string primitives *)
(* ================================================================== *)

Section StringFacts.

Lemma append_assoc (a b c : string) : (a ++ b) ++ c = a ++ (b ++ c).
Proof. induction a as [|x a IH]; simpl; [reflexivity | now rewrite IH]. Qed.

Lemma append_empty_r (a : string) : a ++ "" = a.
Proof. induction a as [|x a IH]; simpl; [reflexivity | now rewrite IH]. Qed.

Lemma length_append (a b : string) :
  String.length (a ++ b) = String.length a + String.length b.
Proof. induction a as [|x a IH]; simpl; [reflexivity | now rewrite IH]. Qed.

Lemma length_zero_empty (a : string) : String.length a = 0 -> a = "".
Proof. destruct a; simpl; [reflexivity | discriminate]. Qed.

Lemma truthy_string_false (s : string) :
  JS.truthy_string s = false <-> s = "".
Proof. destruct s; simpl; split; congruence. Qed.

Lemma trimEnd_idempotent (s : string) : JS.trimEnd (JS.trimEnd s) = JS.trimEnd s.
Proof.
  induction s as [|c s IH]; simpl; [reflexivity|].
  destruct (JS.trimEnd s) as [|d t] eqn:E.
  - destruct (JS.isWhiteSpace c) eqn:W; simpl; [reflexivity|].
    now rewrite W.
  - change (JS.trimEnd (String c (String d t))) with
      (match JS.trimEnd (String d t) with
       | "" => if JS.isWhiteSpace c then "" else String c ""
       | u => String c u
       end).
    rewrite IH. reflexivity.
Qed.

(** A text that does not start with white space keeps its start under
    [trimEnd]. *)
Lemma trimStart_trimEnd_fixed (s : string) :
  JS.trimStart s = s -> JS.trimStart (JS.trimEnd s) = JS.trimEnd s.
Proof.
  destruct s as [|c s]; simpl; [reflexivity|].
  destruct (JS.isWhiteSpace c) eqn:W.
  - intros H. exfalso.
    assert (L : String.length (JS.trimStart s) <= String.length s).
    { clear. induction s as [|d s IH]; simpl; [lia|].
      destruct (JS.isWhiteSpace d); simpl; lia. }
    rewrite H in L. simpl in L. lia.
  - intros _. destruct (JS.trimEnd s); simpl; now rewrite W.
Qed.

Lemma trimStart_idempotent (s : string) :
  JS.trimStart (JS.trimStart s) = JS.trimStart s.
Proof.
  induction s as [|c s IH]; simpl; [reflexivity|].
  destruct (JS.isWhiteSpace c) eqn:W; [exact IH|].
  simpl. now rewrite W.
Qed.

Lemma trim_idempotent (s : string) : JS.trim (JS.trim s) = JS.trim s.
Proof.
  unfold JS.trim.
  rewrite (trimStart_trimEnd_fixed (JS.trimStart s) (trimStart_idempotent s)).
  apply trimEnd_idempotent.
Qed.

Lemma trim_empty : JS.trim "" = "".
Proof. reflexivity. Qed.

Lemma startsWith_toLowerCase (p s : string) :
  JS.startsWith p s = true ->
  JS.startsWith (JS.toLowerCase p) (JS.toLowerCase s) = true.
Proof.
  revert s. induction p as [|a p IH]; intros [|b s]; simpl; try congruence.
  intros H. apply andb_true_iff in H as [Hab Hps].
  apply Ascii.eqb_eq in Hab. subst b.
  rewrite Ascii.eqb_refl. simpl. now apply IH.
Qed.

Lemma includes_toLowerCase (p s : string) :
  JS.includes p s = true ->
  JS.includes (JS.toLowerCase p) (JS.toLowerCase s) = true.
Proof.
  induction s as [|b s IH]; simpl; intros H.
  - apply orb_true_iff in H as [H|H]; [|discriminate].
    apply startsWith_toLowerCase in H. simpl in H. now rewrite H.
  - apply orb_true_iff in H as [H|H].
    + apply startsWith_toLowerCase in H. simpl in H. now rewrite H.
    + rewrite (IH H). apply orb_true_r.
Qed.

End StringFacts.

(* ================================================================== *)
(** ** The record normalizer *)
(* ================================================================== *)

Section NormalizerFacts.

Import ExcelParser.

Variable random : nat -> string.

Lemma keyVal_trimmed (row : Row) : JS.trim (keyVal row) = keyVal row.
Proof.
  unfold keyVal. destruct (truthy (at_ row 1));
    [apply trim_idempotent | reflexivity].
Qed.

Lemma sourceVal_trimmed (row : Row) : JS.trim (sourceVal row) = sourceVal row.
Proof.
  unfold sourceVal. destruct (truthy (at_ row 2));
    [apply trim_idempotent | reflexivity].
Qed.

(** What a pushed record looks like, and when a row is pushed. *)
Lemma rowRecord_Some sheetName rowIndex row suffix r :
  rowRecord sheetName rowIndex row suffix = Some r ->
  2 <= List.length row /\
  isHeaderRow rowIndex row = false /\
  ~ (keyVal row = "" /\ sourceVal row = "") /\
  id r = makeId sheetName rowIndex suffix /\
  taskName r = sheetName /\
  key r = keyVal row /\
  sourceText r = sourceVal row.
Proof.
  unfold rowRecord.
  destruct (List.length row <? 2)%nat eqn:L; [discriminate|].
  destruct (isHeaderRow rowIndex row) eqn:H; [discriminate|].
  destruct (negb (JS.truthy_string (keyVal row)) &&
            negb (JS.truthy_string (sourceVal row))) eqn:E; [discriminate|].
  intros [= <-]. simpl.
  apply Nat.ltb_ge in L.
  repeat split; try assumption.
  intros [K S]. rewrite K, S in E. discriminate.
Qed.

Lemma isHeaderRow_true rowIndex row :
  rowIndex < 5 ->
  (JS.toLowerCase (keyVal row) = "key" \/
   JS.toLowerCase (keyVal row) = "id") ->
  (JS.toLowerCase (sourceVal row) = "value" \/
   JS.toLowerCase (sourceVal row) = "source" \/
   JS.includes "text" (JS.toLowerCase (sourceVal row)) = true \/
   JS.includes "text" (sourceVal row) = true) ->
  isHeaderRow rowIndex row = true.
Proof.
  intros Hi Hk Hs. unfold isHeaderRow.
  apply Nat.ltb_lt in Hi. rewrite Hi. simpl.
  assert (K : ((JS.toLowerCase (keyVal row) =? "key") ||
               (JS.toLowerCase (keyVal row) =? "id")) = true).
  { destruct Hk as [-> | ->]; reflexivity. }
  rewrite K. simpl.
  destruct Hs as [E | [E | [E | E]]].
  - rewrite E. reflexivity.
  - rewrite E. reflexivity.
  - rewrite E. now rewrite !orb_true_r.
  - apply includes_toLowerCase in E.
    change (JS.toLowerCase "text") with "text" in E.
    rewrite E. now rewrite !orb_true_r.
Qed.

Lemma pushRow_None sheetName rowIndex row acc :
  rowRecord sheetName rowIndex row (random (snd acc)) = None ->
  pushRow random sheetName rowIndex row acc = acc.
Proof. unfold pushRow. now intros ->. Qed.

(** A property of every pushed record holds of everything the parser
    returns. *)
Section Forall_records.

Variable P : TranslationRecord -> Prop.
Hypothesis P_pushed : forall sheetName rowIndex row suffix r,
  rowRecord sheetName rowIndex row suffix = Some r -> P r.

Lemma pushRow_Forall sheetName rowIndex row acc :
  Forall P (fst acc) ->
  Forall P (fst (pushRow random sheetName rowIndex row acc)).
Proof using P_pushed.
  intros H. unfold pushRow.
  destruct (rowRecord sheetName rowIndex row (random (snd acc))) eqn:E;
    [|exact H].
  simpl. apply Forall_app. split; [exact H|].
  constructor; [eapply P_pushed; exact E | constructor].
Qed.

Lemma forEachRow_Forall sheetName rows : forall rowIndex acc,
  Forall P (fst acc) ->
  Forall P (fst (forEachRow random sheetName rowIndex rows acc)).
Proof using P_pushed.
  induction rows as [|row rows IH]; intros rowIndex acc H; simpl;
    [exact H|].
  apply IH. now apply pushRow_Forall.
Qed.

Lemma forEachSheet_Forall sheets : forall acc,
  Forall P (fst acc) -> Forall P (fst (forEachSheet random sheets acc)).
Proof using P_pushed.
  induction sheets as [|[sheetName rows] sheets IH]; intros acc H; simpl;
    [exact H|].
  apply IH. now apply forEachRow_Forall.
Qed.

Lemma forEachFile_Forall files : forall acc recs,
  Forall P (fst acc) ->
  fst (forEachFile random files acc) = Some recs -> Forall P recs.
Proof using P_pushed.
  induction files as [|f files IH]; intros acc recs H; simpl.
  - now intros [= <-].
  - destruct (tabularized f) as [workbook|]; [|discriminate].
    apply IH. now apply forEachSheet_Forall.
Qed.

Lemma parseExcelFiles_Forall draws files recs :
  fst (parseExcelFiles random draws files) = Some recs -> Forall P recs.
Proof using P_pushed.
  unfold parseExcelFiles. apply forEachFile_Forall. constructor.
Qed.

End Forall_records.

(** The promise rejects exactly when some file cannot be tabularized. *)
Lemma forEachFile_rejects files : forall acc,
  fst (forEachFile random files acc) = None <->
  exists f, In f files /\ tabularized f = None.
Proof.
  induction files as [|f files IH]; intros acc; simpl.
  - split; [discriminate | intros (f & [] & _)].
  - destruct (tabularized f) as [workbook|] eqn:T.
    + rewrite IH. split.
      * intros (g & Hg & Tg). exists g. auto.
      * intros (g & [<- | Hg] & Tg); [congruence | eauto].
    + simpl. split; [|reflexivity]. intros _. exists f. auto.
Qed.

Lemma storedTrimmed_pushed sheetName rowIndex row suffix r :
  rowRecord sheetName rowIndex row suffix = Some r -> Spec.storedTrimmed r.
Proof.
  intros H. apply rowRecord_Some in H as (_ & _ & _ & _ & _ & K & S).
  unfold Spec.storedTrimmed. rewrite K, S.
  split; [apply keyVal_trimmed | apply sourceVal_trimmed].
Qed.

(** C4.  A row among the first five of its sheet whose key candidate is
    "key" or "id" up to letter case, and whose source candidate is "value"
    or "source" up to letter case or contains "text" (with or without
    regard to letter case), is dropped: the accumulator of the normalizer
    is left as it was. *)
Theorem header_row_is_discarded sheetName rowIndex row acc :
  rowIndex < 5 ->
  (JS.toLowerCase (keyVal row) = "key" \/
   JS.toLowerCase (keyVal row) = "id") ->
  (JS.toLowerCase (sourceVal row) = "value" \/
   JS.toLowerCase (sourceVal row) = "source" \/
   JS.includes "text" (JS.toLowerCase (sourceVal row)) = true \/
   JS.includes "text" (sourceVal row) = true) ->
  pushRow random sheetName rowIndex row acc = acc.
Proof.
  intros Hi Hk Hs. apply pushRow_None. unfold rowRecord.
  destruct (List.length row <? 2)%nat; [reflexivity|].
  now rewrite (isHeaderRow_true rowIndex row Hi Hk Hs).
Qed.

(** The row callback in terms of the values the code computes: a row with
    fewer than two columns gives no record; a row whose [keyVal] and
    [sourceVal] are both empty gives no record; every other row that the
    header test does not catch gives exactly one record. *)
Lemma row_admission sheetName rowIndex row acc :
  (List.length row < 2 ->
   pushRow random sheetName rowIndex row acc = acc) /\
  (keyVal row = "" -> sourceVal row = "" ->
   pushRow random sheetName rowIndex row acc = acc) /\
  (2 <= List.length row ->
   isHeaderRow rowIndex row = false ->
   ~ (keyVal row = "" /\ sourceVal row = "") ->
   exists r,
     pushRow random sheetName rowIndex row acc
       = ((fst acc ++ [r])%list, S (snd acc)) /\
     key r = keyVal row /\ sourceText r = sourceVal row /\
     taskName r = sheetName).
Proof.
  split; [|split].
  - intros L. apply pushRow_None. unfold rowRecord.
    apply Nat.ltb_lt in L. now rewrite L.
  - intros K S. apply pushRow_None. unfold rowRecord.
    destruct (List.length row <? 2)%nat; [reflexivity|].
    destruct (isHeaderRow rowIndex row); [reflexivity|].
    now rewrite K, S.
  - intros L H E. unfold pushRow, rowRecord.
    apply Nat.ltb_ge in L. rewrite L, H.
    destruct (negb (JS.truthy_string (keyVal row)) &&
              negb (JS.truthy_string (sourceVal row))) eqn:B.
    + exfalso. apply E. apply andb_true_iff in B as [B1 B2].
      apply negb_true_iff in B1, B2.
      split; now apply truthy_string_false.
    + eexists. split; [reflexivity|]. simpl. auto.
Qed.

(** C5.  The code drops a row that the claim keeps.  The row has three
    columns, its key candidate (column 1 stringified and trimmed) is "0",
    not empty, and it is no header; yet the callback pushes nothing,
    because the number 0 is falsy and [keyVal] becomes the empty text.  The
    same row with the key written as text is kept, with the key "0". *)
Theorem zero_key_row_is_dropped sheetName rowIndex acc :
  2 <= List.length Examples.zeroKeyRow /\
  Spec.keyCandidate Examples.zeroKeyRow = "0" /\
  Spec.sourceCandidate Examples.zeroKeyRow = "" /\
  Spec.headerRow rowIndex Examples.zeroKeyRow = false /\
  keyVal Examples.zeroKeyRow = "" /\
  pushRow random sheetName rowIndex Examples.zeroKeyRow acc = acc /\
  exists r,
    pushRow random sheetName rowIndex Examples.zeroTextKeyRow acc
      = ((fst acc ++ [r])%list, S (snd acc)) /\
    key r = "0".
Proof.
  split; [simpl; lia|]. split; [reflexivity|]. split; [reflexivity|].
  split; [unfold Spec.headerRow; now rewrite andb_false_r|].
  split; [reflexivity|]. split.
  - apply pushRow_None. unfold rowRecord.
    change (List.length Examples.zeroKeyRow <? 2)%nat with false.
    destruct (isHeaderRow rowIndex Examples.zeroKeyRow); reflexivity.
  - unfold pushRow, rowRecord.
    change (List.length Examples.zeroTextKeyRow <? 2)%nat with false.
    assert (H : isHeaderRow rowIndex Examples.zeroTextKeyRow = false)
      by (unfold isHeaderRow; now rewrite andb_false_r).
    rewrite H. eexists. split; reflexivity.
Qed.

End NormalizerFacts.

(* ================================================================== *)
(** ** The regular expression built from a query *)
(* ================================================================== *)

Section RegExpFacts.

Import RegExp ExactRegex.

Lemma forall_ascii (P : ascii -> bool) :
  forallb P allAscii = true -> forall c, P c = true.
Proof.
  intros H c. rewrite forallb_forall in H. apply H.
  unfold allAscii. rewrite <- (ascii_nat_embedding c).
  apply in_map, in_seq. pose proof (nat_ascii_bounded c). lia.
Qed.

(** The class of [escapeRegExp] lists the syntax characters. *)
Lemma escapeClass_syntax (c : ascii) :
  existsb (Ascii.eqb c) App.escapeClass = isSyntaxCharacter c.
Proof.
  apply Bool.eqb_prop. revert c. apply forall_ascii.
  vm_compute. reflexivity.
Qed.

Lemma charSetMatches_separator (c : ascii) :
  charSetMatches separatorChars c = Spec.isSeparator c.
Proof.
  apply Bool.eqb_prop. revert c. apply forall_ascii.
  vm_compute. reflexivity.
Qed.

(** *** The constructor succeeds on every escaped query *)

Lemma lex_literal c rest :
  isSyntaxCharacter c = false ->
  lex None (String c rest) = option_map (cons (TChar c)) (lex None rest).
Proof.
  intros H.
  assert (E : forall d, In d syntaxCharacters -> Ascii.eqb c d = false).
  { intros d Hd. destruct (Ascii.eqb c d) eqn:X; [|reflexivity].
    unfold isSyntaxCharacter in H.
    rewrite <- H. symmetry. apply existsb_exists. eauto. }
  cbn [lex].
  rewrite (E "\"%char), (E "["%char), (E "("%char), (E ")"%char),
          (E "|"%char), (E "^"%char), (E "$"%char), H
    by (simpl; tauto).
  reflexivity.
Qed.

Lemma lex_escaped c rest :
  isSyntaxCharacter c = true ->
  lex None (String "\" (String c rest))
  = option_map (cons (TChar c)) (lex None rest).
Proof. intros H. cbn [lex]. simpl Ascii.eqb. cbv iota. now rewrite H. Qed.

Lemma lex_escapeRegExp q rest :
  lex None (App.escapeRegExp q ++ rest)
  = option_map (app (map TChar (list_ascii_of_string q))) (lex None rest).
Proof.
  induction q as [|c q IH].
  - simpl. now destruct (lex None rest).
  - cbn [App.escapeRegExp list_ascii_of_string map].
    rewrite escapeClass_syntax.
    destruct (isSyntaxCharacter c) eqn:S; cbn [append].
    + rewrite (lex_escaped c _ S), IH. now destruct (lex None rest).
    + rewrite (lex_literal c _ S), IH. now destruct (lex None rest).
Qed.

Lemma lex_exactMatchPattern q :
  lex None (App.exactMatchPattern (App.escapeRegExp q))
  = Some ([TOpen; TCaret; TBar; TClass separatorChars; TClose]
          ++ map TChar (list_ascii_of_string q)
          ++ [TOpen; TClass separatorChars; TBar; TDollar; TClose])%list.
Proof.
  unfold App.exactMatchPattern.
  assert (P : forall X,
    lex None ("(^|[\s._-])" ++ X)
    = option_map (app [TOpen; TCaret; TBar; TClass separatorChars; TClose])
        (lex None X)).
  { intros X. cbn. now destruct (lex None X). }
  rewrite P, lex_escapeRegExp. reflexivity.
Qed.

Lemma parseTokens_chars cs : forall ts f stack,
  parseTokens (map TChar cs ++ ts) f stack
  = parseTokens ts
      (mkFrame (closed f)
         (seqChars (current f) (string_of_list_ascii cs))) stack.
Proof.
  induction cs as [|c cs IH]; intros ts f stack; simpl.
  - now destruct f.
  - rewrite IH. reflexivity.
Qed.

(** The constructor never throws on an escaped query, and this is the
    tree it builds. *)
Lemma RegExp_exactMatchPattern q :
  RegExp (App.exactMatchPattern (App.escapeRegExp q)) = Some (exactRegex q).
Proof.
  unfold RegExp. rewrite lex_exactMatchPattern.
  cbn [app parseTokens].
  rewrite parseTokens_chars, string_of_list_ascii_of_string.
  reflexivity.
Qed.

(** *** What the regular expression accepts *)

Lemma matcher_seqChars q : forall r x k,
  matcher (seqChars r q) x k = matcher r x (fun y => matchChars q y k).
Proof.
  induction q as [|c q IH]; intros r x k; simpl; [reflexivity|].
  rewrite IH. reflexivity.
Qed.

Lemma matchChars_spec q : forall i rest k,
  matchChars q (i, rest) k = true <->
  exists occurrence after,
    rest = occurrence ++ after /\
    Spec.sameIgnoringCase occurrence q = true /\
    k (i + String.length q, after) = true.
Proof.
  induction q as [|c q IH]; intros i rest k.
  - simpl. rewrite Nat.add_0_r. split.
    + intros H. exists "", rest. auto.
    + intros (occ & after & -> & E & H).
      destruct occ; [exact H | discriminate].
  - cbn [matchChars snd fst]. destruct rest as [|ch rest].
    + split; [discriminate|].
      intros (occ & after & E & L & _).
      destruct occ; [discriminate L | discriminate E].
    + rewrite andb_true_iff, IH. split.
      * intros (C & occ & after & -> & L & H).
        exists (String ch occ), after. split; [reflexivity|]. split.
        -- cbn [Spec.sameIgnoringCase]. now rewrite C, L.
        -- simpl String.length. now rewrite Nat.add_succ_r.
      * intros (occ & after & E & L & H).
        destruct occ as [|o occ]; [discriminate L|].
        injection E as <- ->.
        cbn [Spec.sameIgnoringCase] in L.
        apply andb_true_iff in L as [C L].
        split; [exact C|]. exists occ, after.
        simpl String.length in H. rewrite Nat.add_succ_r in H. auto.
Qed.

Lemma matcher_rightGroup j after :
  matcher rightGroup (j, after) (fun _ => true) = true <->
  Spec.boundedRight after.
Proof.
  unfold Spec.boundedRight. destruct after as [|c p];
    cbn [matcher rightGroup fst snd].
  - split; auto.
  - rewrite charSetMatches_separator, !orb_false_r, andb_true_r. split.
    + intros H. right. exists c, p. auto.
    + intros [H | (c' & p' & [= <- <-] & H)]; [discriminate | exact H].
Qed.

Lemma matcher_exactRegex q i rest :
  matcher (exactRegex q) (i, rest) (fun _ => true) = true <->
  exists lead occurrence after,
    rest = lead ++ occurrence ++ after /\
    Spec.sameIgnoringCase occurrence q = true /\
    Spec.boundedRight after /\
    (lead = "" /\ i = 0 \/
     exists c, lead = String c "" /\ Spec.isSeparator c = true).
Proof.
  unfold exactRegex. cbn [matcher]. rewrite matcher_seqChars.
  cbn [matcher leftGroup fst snd]. rewrite orb_true_iff, andb_true_iff.
  split.
  - intros [[I H] | H].
    + apply Nat.eqb_eq in I. apply matchChars_spec in H.
      destruct H as (occ & after & -> & L & H).
      apply matcher_rightGroup in H.
      exists "", occ, after. repeat split; auto.
    + destruct rest as [|c rest]; [discriminate|].
      apply andb_true_iff in H as [C H].
      rewrite charSetMatches_separator in C.
      apply matchChars_spec in H. destruct H as (occ & after & -> & L & H).
      apply matcher_rightGroup in H.
      exists (String c ""), occ, after. repeat split; eauto.
  - intros (lead & occ & after & -> & L & R & [[-> ->] | (c & -> & C)]).
    + left. split; [reflexivity|]. apply matchChars_spec.
      exists occ, after. repeat split; auto.
      now apply matcher_rightGroup.
    + right. cbn [append]. rewrite charSetMatches_separator, C.
      cbn [andb]. apply matchChars_spec.
      exists occ, after. repeat split; auto.
      now apply matcher_rightGroup.
Qed.

Lemma execFrom_spec r : forall rest i,
  execFrom r i rest = true <->
  exists skipped rest',
    rest = skipped ++ rest' /\
    matcher r (i + String.length skipped, rest') (fun _ => true) = true.
Proof.
  induction rest as [|c rest IH]; intros i; cbn [execFrom].
  - rewrite orb_false_r. split.
    + intros H. exists "", "". rewrite Nat.add_0_r. auto.
    + intros (sk & rest' & E & H).
      destruct sk; [|discriminate]. simpl in E. subst rest'.
      now rewrite Nat.add_0_r in H.
  - rewrite orb_true_iff, IH. split.
    + intros [H | (sk & rest' & -> & H)].
      * exists "", (String c rest). rewrite Nat.add_0_r. auto.
      * exists (String c sk), rest'. split; [reflexivity|].
        simpl String.length. now rewrite Nat.add_succ_r.
    + intros (sk & rest' & E & H). destruct sk as [|s sk].
      * simpl in E. subst rest'. left. now rewrite Nat.add_0_r in H.
      * injection E as <- ->. right. exists sk, rest'.
        split; [reflexivity|].
        simpl String.length in H. now rewrite Nat.add_succ_r in H.
Qed.

(** The regular expression of the search accepts exactly the texts that
    contain the query as a whole word. *)
Lemma test_exactRegex q text :
  test (exactRegex q) text = true <-> Spec.wholeWord q text.
Proof.
  unfold test, Spec.wholeWord. rewrite execFrom_spec. split.
  - intros (sk & rest' & -> & H). apply matcher_exactRegex in H.
    destruct H as (lead & occ & after & -> & L & R & B).
    exists (sk ++ lead), occ, after. rewrite append_assoc.
    repeat split; auto.
    destruct B as [[-> I] | (c & -> & C)].
    + left. simpl in I. apply length_zero_empty in I. now subst sk.
    + right. eauto.
  - intros (before & occ & after & -> & L & [-> | (p & c & -> & C)] & R).
    + exists "", (occ ++ after). split; [reflexivity|].
      apply matcher_exactRegex. exists "", occ, after.
      repeat split; auto.
    + exists p, (String c "" ++ occ ++ after).
      split; [now rewrite append_assoc|].
      apply matcher_exactRegex. exists (String c ""), occ, after.
      repeat split; eauto.
Qed.

End RegExpFacts.

(* ================================================================== *)
(** ** The two input paths of the drop zone *)
(* ================================================================== *)

Section DropZoneFacts.

Import DropZone.

Lemma filter_all {A} (f : A -> bool) (l : list A) :
  Forall (fun x => f x = true) l -> filter f l = l.
Proof.
  induction 1 as [|x l Hx _ IH]; simpl; [reflexivity|].
  now rewrite Hx, IH.
Qed.

(** The drop path is the picker path behind a guard and a filter. *)
Lemma handleDrop_filters (isProcessing : bool) (files : list File) :
  handleDrop isProcessing files =
  if isProcessing then None
  else handleFileInput (Some (filter hasSheetExtension files)).
Proof. reflexivity. Qed.

(** Where the two paths do agree: while no import is running, a list of
    files whose names all pass the filter of the drop path reaches
    [onFilesSelected] unchanged on both paths, or on neither when the list
    is empty. *)
Lemma input_paths_agree_on_sheet_files (files : list File) :
  Forall (fun f => hasSheetExtension f = true) files ->
  handleDrop false files = handleFileInput (Some files).
Proof.
  intros H. rewrite handleDrop_filters.
  now rewrite (filter_all _ _ H).
Qed.

End DropZoneFacts.

(** C9.  The two paths differ on two spreadsheets handed in together,
    book.xlsx and BOOK.XLSX, whose names differ only in letter case: the
    drop path, whose filter compares the ending case-sensitively, passes
    on the first alone; the picker passes on both. *)
Theorem input_paths_differ :
  JS.toLowerCase (name Examples.bookUpper) = name Examples.book /\
  DropZone.hasSheetExtension Examples.book = true /\
  DropZone.hasSheetExtension Examples.bookUpper = false /\
  DropZone.handleDrop false [Examples.book; Examples.bookUpper]
    = Some [Examples.book] /\
  DropZone.handleFileInput (Some [Examples.book; Examples.bookUpper])
    = Some [Examples.book; Examples.bookUpper] /\
  DropZone.handleDrop false [Examples.book; Examples.bookUpper]
    <> DropZone.handleFileInput (Some [Examples.book; Examples.bookUpper]).
Proof. repeat split. discriminate. Qed.

(* ================================================================== *)
(** ** Identifiers *)
(* ================================================================== *)

Section IdFacts.

Import ExcelParser.

Lemma dashFree_append_dash (a b : string) :
  Spec.dashFree (a ++ String "-" b) = false.
Proof.
  induction a as [|c a IH]; simpl; [reflexivity|].
  rewrite IH. apply andb_false_r.
Qed.

(** Cutting at the last dash is unambiguous. *)
Lemma split_at_last_dash (a : string) : forall b x y,
  Spec.dashFree x = true -> Spec.dashFree y = true ->
  a ++ String "-" x = b ++ String "-" y ->
  a = b /\ x = y.
Proof.
  induction a as [|c a IH]; intros [|d b] x y Hx Hy E; simpl in E.
  - injection E as ->. auto.
  - injection E as <- ->. now rewrite dashFree_append_dash in Hx.
  - injection E as -> <-. now rewrite dashFree_append_dash in Hy.
  - injection E as <- E. destruct (IH b x y Hx Hy E) as [-> ->]. auto.
Qed.

Lemma dashFree_string_of_uint (d : Decimal.uint) :
  Spec.dashFree (NilEmpty.string_of_uint d) = true.
Proof. induction d; simpl; auto. Qed.

Lemma dashFree_String_of_nat (n : nat) :
  Spec.dashFree (JS.String_of_nat n) = true.
Proof.
  unfold JS.String_of_nat, NilZero.string_of_uint.
  destruct (Nat.to_uint n) eqn:E; try reflexivity;
    rewrite <- E; apply dashFree_string_of_uint.
Qed.

Lemma to_uint_nonnil (n : nat) : Nat.to_uint n <> Decimal.Nil.
Proof.
  rewrite <- (DecimalNat.Unsigned.of_to n) at 1.
  rewrite DecimalNat.Unsigned.to_of. apply DecimalFacts.unorm_nonnil.
Qed.

Lemma String_of_nat_inj (n m : nat) :
  JS.String_of_nat n = JS.String_of_nat m -> n = m.
Proof.
  unfold JS.String_of_nat. intros E.
  apply DecimalNat.Unsigned.to_uint_inj.
  pose proof (NilZero.usu _ (to_uint_nonnil n)) as Hn.
  pose proof (NilZero.usu _ (to_uint_nonnil m)) as Hm.
  rewrite E in Hn. congruence.
Qed.

Lemma dashFree_randomSuffix (s : string) :
  Spec.isRandomSuffix s = true -> Spec.dashFree s = true.
Proof.
  unfold Spec.isRandomSuffix. intros H.
  apply andb_true_iff in H as [_ H].
  induction s as [|c s IH]; simpl in *; [reflexivity|].
  apply andb_true_iff in H as [C H]. rewrite (IH H), andb_true_r.
  destruct (Ascii.eqb c "-") eqn:E; [|reflexivity].
  apply Ascii.eqb_eq in E. subst c. discriminate C.
Qed.

(** Two ids are equal only if sheet name, row index and random suffix are
    all equal. *)
Lemma makeId_inj s i x s' i' x' :
  Spec.dashFree x = true -> Spec.dashFree x' = true ->
  makeId s i x = makeId s' i' x' ->
  s = s' /\ i = i' /\ x = x'.
Proof.
  unfold makeId. intros Hx Hx' E.
  change (s ++ "-" ++ JS.String_of_nat i ++ "-" ++ x)
    with (s ++ String "-" (JS.String_of_nat i ++ String "-" x)) in E.
  change (s' ++ "-" ++ JS.String_of_nat i' ++ "-" ++ x')
    with (s' ++ String "-" (JS.String_of_nat i' ++ String "-" x')) in E.
  change (String "-" (JS.String_of_nat i ++ String "-" x))
    with (String "-" (JS.String_of_nat i) ++ String "-" x) in E.
  change (String "-" (JS.String_of_nat i' ++ String "-" x'))
    with (String "-" (JS.String_of_nat i') ++ String "-" x') in E.
  rewrite <- !append_assoc in E.
  apply split_at_last_dash in E as [E ->]; try assumption.
  apply split_at_last_dash in E as [-> E];
    try apply dashFree_String_of_nat.
  apply String_of_nat_inj in E. auto.
Qed.

End IdFacts.

Section StampedFacts.

Import ExcelParser.

Variable random : nat -> string.

Lemma Stamped_le lo recs hi : Stamped random lo recs hi -> lo <= hi.
Proof. induction 1; lia. Qed.

Lemma Stamped_raise lo recs hi hi' :
  Stamped random lo recs hi -> hi <= hi' -> Stamped random lo recs hi'.
Proof.
  induction 1 as [lo hi L | lo hi d s i r recs L E _ IH]; intros H.
  - constructor. lia.
  - apply Stamped_cons with (d := d) (sheetName := s) (rowIndex := i);
      [exact L | exact E | exact (IH H)].
Qed.

Lemma Stamped_app lo xs mid ys hi :
  Stamped random lo xs mid -> Stamped random mid ys hi ->
  Stamped random lo (xs ++ ys) hi.
Proof.
  induction 1 as [lo mid L | lo mid d s i r recs L E _ IH]; intros H;
    simpl.
  - destruct H as [mid hi L' | mid hi d s i r recs L' E S].
    + constructor. lia.
    + apply Stamped_cons with (d := d) (sheetName := s) (rowIndex := i);
        [lia | exact E | exact S].
  - apply Stamped_cons with (d := d) (sheetName := s) (rowIndex := i);
      [exact L | exact E | exact (IH H)].
Qed.

Lemma Stamped_In lo recs hi r :
  Stamped random lo recs hi -> In r recs ->
  exists d sheetName rowIndex,
    lo <= d < hi /\ id r = makeId sheetName rowIndex (random d).
Proof.
  induction 1 as [lo hi L | lo hi d s i r0 recs L E S IH];
    intros H; [contradiction|].
  destruct H as [<- | H].
  - exists d, s, i. apply Stamped_le in S. split; [lia | exact E].
  - destruct (IH H) as (d' & s' & i' & B & E').
    exists d', s', i'. split; [lia | exact E'].
Qed.

(** Distinct draws give distinct ids. *)
Lemma Stamped_NoDup lo recs hi :
  (forall i, i < hi -> Spec.isRandomSuffix (random i) = true) ->
  (forall i j, i < j < hi -> random i <> random j) ->
  Stamped random lo recs hi -> NoDup (map id recs).
Proof.
  intros Shape Distinct.
  induction 1 as [lo hi L | lo hi d s i r recs L E S IH]; simpl.
  - constructor.
  - constructor; [|exact (IH Shape Distinct)].
    intros H. apply in_map_iff in H as (r' & E' & H).
    destruct (Stamped_In _ _ _ _ S H) as (d' & s' & i' & B & E'').
    apply Stamped_le in S.
    rewrite E, E'' in E'.
    apply makeId_inj in E' as (_ & _ & X);
      try (apply dashFree_randomSuffix, Shape; lia).
    apply (Distinct d d'); [lia | congruence].
Qed.

Lemma pushRow_Stamped lo sheetName rowIndex row acc :
  Stamped random lo (fst acc) (snd acc) ->
  Stamped random lo (fst (pushRow random sheetName rowIndex row acc))
                    (snd (pushRow random sheetName rowIndex row acc)).
Proof.
  intros H. unfold pushRow.
  destruct (rowRecord sheetName rowIndex row (random (snd acc))) as [r|]
    eqn:E; [|exact H].
  apply rowRecord_Some in E as (_ & _ & _ & E & _). simpl.
  eapply Stamped_app; [exact H|].
  econstructor; [apply le_n | exact E | constructor; lia].
Qed.

Lemma forEachRow_Stamped lo sheetName rows : forall rowIndex acc,
  Stamped random lo (fst acc) (snd acc) ->
  Stamped random lo (fst (forEachRow random sheetName rowIndex rows acc))
                    (snd (forEachRow random sheetName rowIndex rows acc)).
Proof.
  induction rows as [|row rows IH]; intros rowIndex acc H; simpl;
    [exact H|].
  apply IH. now apply pushRow_Stamped.
Qed.

Lemma forEachSheet_Stamped lo sheets : forall acc,
  Stamped random lo (fst acc) (snd acc) ->
  Stamped random lo (fst (forEachSheet random sheets acc))
                    (snd (forEachSheet random sheets acc)).
Proof.
  induction sheets as [|[sheetName rows] sheets IH]; intros acc H; simpl;
    [exact H|].
  apply IH. now apply forEachRow_Stamped.
Qed.

Lemma pushRow_draws sheetName rowIndex row acc :
  snd acc <= snd (pushRow random sheetName rowIndex row acc).
Proof.
  unfold pushRow.
  destruct (rowRecord sheetName rowIndex row (random (snd acc)));
    simpl; lia.
Qed.

Lemma forEachRow_draws sheetName rows : forall rowIndex acc,
  snd acc <= snd (forEachRow random sheetName rowIndex rows acc).
Proof.
  induction rows as [|row rows IH]; intros rowIndex acc; simpl; [lia|].
  etransitivity; [apply pushRow_draws | apply IH].
Qed.

Lemma forEachSheet_draws sheets : forall acc,
  snd acc <= snd (forEachSheet random sheets acc).
Proof.
  induction sheets as [|[sheetName rows] sheets IH]; intros acc; simpl;
    [lia|].
  etransitivity; [apply forEachRow_draws | apply IH].
Qed.

(** The draw count never decreases, and a fulfilled promise carries
    stamped records. *)
Lemma forEachFile_Stamped lo files : forall acc,
  Stamped random lo (fst acc) (snd acc) ->
  snd acc <= snd (forEachFile random files acc) /\
  forall recs, fst (forEachFile random files acc) = Some recs ->
    Stamped random lo recs (snd (forEachFile random files acc)).
Proof.
  induction files as [|f files IH]; intros acc H; simpl.
  - split; [lia|]. now intros recs [= <-].
  - destruct (tabularized f) as [workbook|].
    + destruct (IH _ (forEachSheet_Stamped lo workbook acc H)) as [L K].
      split; [|exact K].
      pose proof (forEachSheet_draws workbook acc). lia.
    + simpl. split; [lia | discriminate].
Qed.

End StampedFacts.

(* ================================================================== *)
(** ** The component: import, search, reset *)
(* ================================================================== *)

Section AppFacts.

Import ExcelParser ExactRegex App.

Variable random : nat -> string.
Variable Fuse_search :
  list TranslationRecord -> string -> list TranslationRecord.

Local Abbreviation step := (App.step random Fuse_search).
Local Abbreviation run := (App.run random Fuse_search).
Local Abbreviation search := (App.search Fuse_search).
Local Abbreviation searchEffect := (App.searchEffect Fuse_search).
Local Abbreviation handleFiles := (App.handleFiles random).
Local Abbreviation parseExcelFiles := (ExcelParser.parseExcelFiles random).

Lemma Set_has_In (s : list string) (x : string) :
  Set_has s x = true <-> In x s.
Proof.
  unfold Set_has. rewrite existsb_exists. split.
  - intros (y & H & E). apply String.eqb_eq in E. now subst.
  - intros H. exists x. split; [exact H | apply String.eqb_refl].
Qed.

(** The filter callback decides the exact-match condition of the
    specification. *)
Lemma isExact_spec q r :
  isExact (JS.toLowerCase q) (exactRegex q) r = true <->
  Spec.exactMatch q r.
Proof.
  unfold isExact, Spec.exactMatch.
  rewrite <- !test_exactRegex, <- !String.eqb_eq.
  destruct (JS.toLowerCase (key r) =? JS.toLowerCase q);
  destruct (JS.toLowerCase (sourceText r) =? JS.toLowerCase q);
  destruct (RegExp.test (exactRegex q) (key r));
  destruct (RegExp.test (exactRegex q) (sourceText r));
  simpl; intuition congruence.
Qed.

Lemma searchLists_eq f recs q :
  searchLists f recs q
  = Some (filter (isExact (JS.toLowerCase q) (exactRegex q)) recs,
          filter (fun item =>
                    negb (Set_has
                            (map id (filter (isExact (JS.toLowerCase q)
                                               (exactRegex q)) recs))
                            (id item)))
                 (f q)).
Proof. unfold searchLists. now rewrite RegExp_exactMatchPattern. Qed.

Lemma searchLists_disjoint f recs q exact fuzzy :
  searchLists f recs q = Some (exact, fuzzy) ->
  Spec.disjointById exact fuzzy.
Proof.
  rewrite searchLists_eq. intros [= <- <-] r1 r2 H1 H2 E.
  apply filter_In in H2 as [_ H2]. apply negb_true_iff in H2.
  assert (X : Set_has
                (map id (filter (isExact (JS.toLowerCase q) (exactRegex q))
                           recs)) (id r2) = true).
  { apply Set_has_In. rewrite <- E. now apply in_map. }
  congruence.
Qed.

(** The three ways the effect can go. *)
Lemma searchEffect_browse st :
  JS.trim (debouncedQuery st) = "" ->
  searchEffect st = setMatches [] (records st) st.
Proof. unfold App.searchEffect. now intros ->. Qed.

Lemma searchEffect_no_index st :
  JS.trim (debouncedQuery st) <> "" -> records st = [] ->
  searchEffect st = st.
Proof.
  intros Q R. unfold App.searchEffect, fuse.
  destruct (JS.trim (debouncedQuery st)); [congruence|].
  simpl. now rewrite R.
Qed.

Lemma searchEffect_search st :
  JS.trim (debouncedQuery st) <> "" -> records st <> [] ->
  let q := JS.trim (debouncedQuery st) in
  let exact := filter (isExact (JS.toLowerCase q) (exactRegex q))
                 (records st) in
  searchEffect st =
  setMatches exact
    (filter (fun item => negb (Set_has (map id exact) (id item)))
       (Fuse_search (records st) q)) st.
Proof.
  intros Q R. unfold App.searchEffect, fuse.
  destruct (JS.trim (debouncedQuery st)) eqn:E; [congruence|].
  cbn [JS.truthy_string negb].
  destruct (records st) eqn:E'; [congruence|].
  now rewrite searchLists_eq.
Qed.

Lemma searchEffect_cases st :
  searchEffect st = st \/
  searchEffect st = setMatches [] (records st) st \/
  exists exact fuzzy,
    Spec.disjointById exact fuzzy /\ records st <> [] /\
    searchEffect st = setMatches exact fuzzy st.
Proof.
  destruct (string_dec (JS.trim (debouncedQuery st)) "") as [Q|Q].
  - right. left. now apply searchEffect_browse.
  - destruct (records st) eqn:R.
    + left. now apply searchEffect_no_index.
    + right. right.
      assert (R' : records st <> []) by congruence.
      rewrite (searchEffect_search st Q R'). rewrite <- R.
      eexists _, _. split; [|split; [exact R' | reflexivity]].
      eapply searchLists_disjoint. apply searchLists_eq.
Qed.

Lemma searchEffect_records st : records (searchEffect st) = records st.
Proof.
  destruct (searchEffect_cases st) as [-> | [-> | (e & f & _ & _ & ->)]];
    reflexivity.
Qed.

Lemma searchEffect_randomDraws st :
  randomDraws (searchEffect st) = randomDraws st.
Proof.
  destruct (searchEffect_cases st) as [-> | [-> | (e & f & _ & _ & ->)]];
    reflexivity.
Qed.

(** [handleFiles] spelled out on the outcome of the parser. *)
Lemma handleFiles_eq files st :
  handleFiles files st =
  match fst (parseExcelFiles (randomDraws st) files) with
  | Some newRecords =>
      (mkState (records st ++ newRecords)%list false (searchQuery st)
         (Some (mkStats (List.length files)
                  (List.length
                     (nodup string_dec (map taskName newRecords)))
                  (List.length newRecords)))
         (exactMatches st) (fuzzyMatches st) (debouncedQuery st)
         (snd (parseExcelFiles (randomDraws st) files)), true)
  | None =>
      (mkState (records st) false (searchQuery st) (stats st)
         (exactMatches st) (fuzzyMatches st) (debouncedQuery st)
         (snd (parseExcelFiles (randomDraws st) files)), false)
  end.
Proof.
  unfold App.handleFiles. cbn [setIsProcessing randomDraws].
  destruct (parseExcelFiles (randomDraws st) files) as [[newRecords|] d];
    reflexivity.
Qed.

(** Induction over the events of a session. *)
Lemma run_invariant (P : AppState -> Prop) :
  P initialState ->
  (forall st e, P st -> P (step st e)) ->
  forall events, P (run events initialState).
Proof.
  intros H0 Hstep events. unfold App.run.
  generalize dependent initialState.
  induction events as [|e events IH]; intros st H; simpl; auto.
Qed.

(** What one event does to the record set and to the two lists. *)
Lemma step_cases st e :
  let st' := step st e in
  (records st' = [] \/ exists newRecords,
     records st' = (records st ++ newRecords)%list) /\
  ((exactMatches st' = exactMatches st /\
    fuzzyMatches st' = fuzzyMatches st /\
    (records st' = [] -> records st = [])) \/
   (exactMatches st' = [] /\ fuzzyMatches st' = records st') \/
   (Spec.disjointById (exactMatches st') (fuzzyMatches st') /\
    records st' <> [])).
Proof.
  assert (Effect : forall s0 : AppState,
    (exactMatches s0 = exactMatches st /\ fuzzyMatches s0 = fuzzyMatches st /\
     (records s0 = [] -> records st = [])) \/
    (exactMatches s0 = [] /\ fuzzyMatches s0 = records s0) ->
    (exactMatches (searchEffect s0) = exactMatches st /\
     fuzzyMatches (searchEffect s0) = fuzzyMatches st /\
     (records (searchEffect s0) = [] -> records st = [])) \/
    (exactMatches (searchEffect s0) = [] /\
     fuzzyMatches (searchEffect s0) = records (searchEffect s0)) \/
    (Spec.disjointById (exactMatches (searchEffect s0))
                       (fuzzyMatches (searchEffect s0)) /\
     records (searchEffect s0) <> [])).
  { intros s0 H0.
    destruct (searchEffect_cases s0)
      as [-> | [-> | (ex & fz & D & R & ->)]]; cbn.
    - destruct H0 as [H0 | H0]; auto.
    - auto.
    - auto. }
  destruct e as [files | q | q | ]; cbn [App.step].
  - rewrite handleFiles_eq.
    destruct (fst (parseExcelFiles (randomDraws st) files))
      as [newRecords|].
    + split.
      * right. exists newRecords. now rewrite searchEffect_records.
      * apply Effect. left. cbn. repeat split.
        intros E. now apply List.app_eq_nil in E.
    + cbn. split.
      * right. exists []. now rewrite List.app_nil_r.
      * left. auto.
  - cbn. split.
    + right. exists []. now rewrite List.app_nil_r.
    + left. auto.
  - destruct (q =? debouncedQuery st).
    + split.
      * right. exists []. now rewrite List.app_nil_r.
      * left. auto.
    + split.
      * right. exists []. rewrite searchEffect_records. cbn.
        now rewrite List.app_nil_r.
      * apply Effect. left. cbn. auto.
  - split.
    + left. now rewrite searchEffect_records.
    + apply Effect. right. cbn. auto.
Qed.

(** With no record, both lists are empty, whatever happened before. *)
Lemma no_record_no_match events :
  records (run events initialState) = [] ->
  exactMatches (run events initialState) = [] /\
  fuzzyMatches (run events initialState) = [].
Proof.
  apply (run_invariant (fun st =>
    records st = [] -> exactMatches st = [] /\ fuzzyMatches st = [])).
  - auto.
  - intros st e IH R.
    destruct (step_cases st e) as [_ [(E & F & K) | [(E & F) | (_ & K)]]].
    + rewrite E, F. auto.
    + rewrite E, F. auto.
    + contradiction.
Qed.

(** The two lists never share an id. *)
Lemma matches_disjoint events :
  Spec.disjointById (exactMatches (run events initialState))
                    (fuzzyMatches (run events initialState)).
Proof.
  apply (run_invariant (fun st =>
    Spec.disjointById (exactMatches st) (fuzzyMatches st))).
  - intros r1 r2 [].
  - intros st e IH.
    destruct (step_cases st e) as [_ [(E & F & _) | [(E & F) | (D & _)]]].
    + now rewrite E, F.
    + rewrite E. intros r1 r2 [].
    + exact D.
Qed.

(** The ids of the accumulated records are stamped with increasing
    draws. *)
Lemma records_stamped events :
  Stamped random 0 (records (run events initialState))
                   (randomDraws (run events initialState)).
Proof.
  apply (run_invariant (fun st =>
    Stamped random 0 (records st) (randomDraws st))).
  - constructor. lia.
  - intros st e IH. destruct e as [files | q | q | ]; cbn [App.step].
    + rewrite handleFiles_eq.
      destruct (forEachFile_Stamped random (randomDraws st) files
                  ([], randomDraws st)) as [L K];
        [constructor; cbn; lia|].
      fold (parseExcelFiles (randomDraws st) files) in L, K.
      destruct (fst (parseExcelFiles (randomDraws st) files))
        as [newRecords|].
      * rewrite searchEffect_records, searchEffect_randomDraws. cbn.
        eapply Stamped_app; [exact IH | now apply K].
      * cbn. eapply Stamped_raise; [exact IH | exact L].
    + exact IH.
    + destruct (q =? debouncedQuery st); [exact IH|].
      now rewrite searchEffect_records, searchEffect_randomDraws.
    + rewrite searchEffect_records, searchEffect_randomDraws. cbn.
      constructor. lia.
Qed.

(** C1.  For a query whose trimmed text [q] is not empty, the exact-match
    list of [search] is the record set filtered, in its own order, by a
    test that holds of a record exactly when its key or its source text
    equals [q] up to letter case, or contains [q], up to letter case, as a
    whole word bounded by the ends of the text or by separators. *)
Theorem exact_matches_are_the_filtered_records events query :
  JS.trim query <> "" ->
  exists f,
    fst (search query (run events initialState))
      = filter f (records (run events initialState)) /\
    forall r, f r = true <-> Spec.exactMatch (JS.trim query) r.
Proof.
  intros Q.
  exists (isExact (JS.toLowerCase (JS.trim query))
                  (exactRegex (JS.trim query))).
  split; [|intros r; apply isExact_spec].
  unfold App.search. cbn [fst].
  set (st := run events initialState).
  destruct (records st) eqn:R.
  - rewrite searchEffect_no_index by (cbn; assumption).
    cbn. now apply no_record_no_match.
  - assert (R' : records (setDebouncedQuery query st) <> [])
      by (cbn; congruence).
    rewrite (searchEffect_search (setDebouncedQuery query st) Q R').
    cbn. now rewrite R.
Qed.

(** C2.  After a search from any state a session can reach, no record of
    the exact-match list has the id of a record of the fuzzy-match list. *)
Theorem exact_and_fuzzy_share_no_id events query r1 r2 :
  In r1 (fst (search query (run events initialState))) ->
  In r2 (snd (search query (run events initialState))) ->
  id r1 <> id r2.
Proof.
  unfold App.search. cbn [fst snd].
  set (st := run events initialState).
  destruct (searchEffect_cases (setDebouncedQuery query st))
    as [-> | [-> | (ex & fz & D & _ & ->)]]; cbn.
  - apply matches_disjoint.
  - intros [].
  - apply D.
Qed.

(** C3.  A query that is empty once trimmed gives no exact match and the
    whole record set, in its order, as fuzzy matches. *)
Theorem empty_query_browses_all st query :
  JS.trim query = "" ->
  search query st = ([], records st).
Proof.
  intros Q. unfold App.search.
  rewrite searchEffect_browse by (cbn; assumption).
  reflexivity.
Qed.

(** C6.  If one of the files of an import cannot be tabularized, the
    parser rejects as a whole, and the import leaves the record set, the
    two result lists and the statistics as they were. *)
Theorem failed_import_commits_nothing st files :
  (exists f, In f files /\ tabularized f = None) ->
  fst (parseExcelFiles (randomDraws st) files) = None /\
  records (step st (FilesSelected files)) = records st /\
  exactMatches (step st (FilesSelected files)) = exactMatches st /\
  fuzzyMatches (step st (FilesSelected files)) = fuzzyMatches st /\
  stats (step st (FilesSelected files)) = stats st.
Proof.
  intros H.
  assert (N : fst (parseExcelFiles (randomDraws st) files) = None)
    by (apply forEachFile_rejects; exact H).
  split; [exact N|].
  cbn [App.step]. rewrite handleFiles_eq, N. cbn. auto.
Qed.

(** C7, as it holds.  An import appends its records to the record set and
    leaves the earlier ones as they are; and as long as the random
    suffixes drawn so far are pairwise different, the ids of the record
    set are pairwise different. *)
Theorem ids_unique_while_draws_differ :
  (forall st files, exists newRecords,
     records (step st (FilesSelected files))
       = (records st ++ newRecords)%list) /\
  (forall events,
     (forall i, i < randomDraws (run events initialState) ->
        Spec.isRandomSuffix (random i) = true) ->
     (forall i j, i < j < randomDraws (run events initialState) ->
        random i <> random j) ->
     NoDup (map id (records (run events initialState)))).
Proof.
  split.
  - intros st files. cbn [App.step]. rewrite handleFiles_eq.
    destruct (fst (parseExcelFiles (randomDraws st) files))
      as [newRecords|].
    + exists newRecords. now rewrite searchEffect_records.
    + exists []. cbn. now rewrite List.app_nil_r.
  - intros events Shape Distinct.
    exact (Stamped_NoDup random 0 _ _ Shape Distinct
             (records_stamped events)).
Qed.

(** C8.  Whenever the record set is empty, a search with any query gives
    two empty lists. *)
Theorem no_record_no_result events query :
  records (run events initialState) = [] ->
  search query (run events initialState) = ([], []).
Proof.
  intros R. unfold App.search.
  destruct (no_record_no_match events R) as [E F].
  destruct (string_dec (JS.trim query) "") as [Q|Q].
  - rewrite searchEffect_browse by (cbn; assumption). cbn. now rewrite R.
  - rewrite searchEffect_no_index by (cbn; assumption). cbn.
    now rewrite E, F.
Qed.

(** C10.  Every record the normalizer returns has a key and a source text
    that are their own trim, and so has every record of the record set
    after any sequence of events. *)
Theorem stored_fields_are_trimmed :
  (forall draws files,
     match fst (parseExcelFiles draws files) with
     | Some recs => Forall Spec.storedTrimmed recs
     | None => True
     end) /\
  (forall events,
     Forall Spec.storedTrimmed (records (run events initialState))).
Proof.
  assert (N : forall draws files recs,
    fst (parseExcelFiles draws files) = Some recs ->
    Forall Spec.storedTrimmed recs).
  { intros draws files recs.
    apply (parseExcelFiles_Forall random _ storedTrimmed_pushed). }
  split.
  - intros draws files.
    destruct (fst (parseExcelFiles draws files)) eqn:E; [|exact I].
    eapply N; exact E.
  - apply (run_invariant (fun st =>
      Forall Spec.storedTrimmed (records st))); [constructor|].
    intros st e IH.
    destruct (step_cases st e) as [[R | (newRecords & R)] _].
    + rewrite R. constructor.
    + destruct e as [files | q | q | ]; cbn [App.step] in *.
      * rewrite handleFiles_eq in *.
        destruct (fst (parseExcelFiles (randomDraws st) files))
          as [recs|] eqn:E.
        -- rewrite searchEffect_records. cbn.
           apply Forall_app. split; [exact IH | eapply N; exact E].
        -- exact IH.
      * exact IH.
      * destruct (q =? debouncedQuery st); [exact IH|].
        now rewrite searchEffect_records.
      * rewrite searchEffect_records. constructor.
Qed.

End AppFacts.

(* ================================================================== *)
(** ** The statements at sample inputs *)
(* ================================================================== *)

Lemma header_row_witness :
  0 < 5 /\
  JS.toLowerCase
    (ExcelParser.keyVal [CellStr "#"; CellStr "Key"; CellStr "Source"])
    = "key" /\
  JS.toLowerCase
    (ExcelParser.sourceVal [CellStr "#"; CellStr "Key"; CellStr "Source"])
    = "source" /\
  ExcelParser.pushRow Examples.freshDraws "Sheet1" 0
    [CellStr "#"; CellStr "Key"; CellStr "Source"] ([], 0) = ([], 0).
Proof.
  split; [lia|]. split; [reflexivity|]. split; [reflexivity|].
  apply (header_row_is_discarded Examples.freshDraws "Sheet1" 0
           [CellStr "#"; CellStr "Key"; CellStr "Source"] ([], 0)).
  - lia.
  - left. reflexivity.
  - right. left. reflexivity.
Defined.

Lemma row_admission_witness :
  ExcelParser.pushRow Examples.freshDraws "Sheet1" 7 [CellStr "x"] ([], 0)
    = ([], 0) /\
  ExcelParser.pushRow Examples.freshDraws "Sheet1" 7
    [CellStr "1"; CellStr ""; CellStr ""] ([], 0) = ([], 0) /\
  exists r,
    ExcelParser.pushRow Examples.freshDraws "Sheet1" 1
      [CellStr "1"; CellStr "greeting"; CellStr "Hello World"] ([], 0)
      = ([r], 1) /\
    key r = "greeting" /\ sourceText r = "Hello World" /\
    taskName r = "Sheet1".
Proof.
  split; [|split].
  - apply (proj1 (row_admission Examples.freshDraws "Sheet1" 7
                    [CellStr "x"] ([], 0))).
    simpl. lia.
  - apply (proj1 (proj2 (row_admission Examples.freshDraws "Sheet1" 7
                           [CellStr "1"; CellStr ""; CellStr ""] ([], 0))));
      reflexivity.
  - apply (proj2 (proj2 (row_admission Examples.freshDraws "Sheet1" 1
                           [CellStr "1"; CellStr "greeting";
                            CellStr "Hello World"] ([], 0)))).
    + simpl. lia.
    + reflexivity.
    + intros [H _]. discriminate H.
Defined.

Lemma exact_matches_witness :
  JS.trim " Hello World " <> "" /\
  exists f,
    fst (App.search Examples.everyRecord " Hello World "
           (App.run Examples.freshDraws Examples.everyRecord
              [App.FilesSelected [Examples.book]] App.initialState))
      = filter f
          (App.records
             (App.run Examples.freshDraws Examples.everyRecord
                [App.FilesSelected [Examples.book]] App.initialState)) /\
    forall r, f r = true <-> Spec.exactMatch (JS.trim " Hello World ") r.
Proof.
  assert (Q : JS.trim " Hello World " <> "") by discriminate.
  split; [exact Q|].
  exact (exact_matches_are_the_filtered_records Examples.freshDraws
           Examples.everyRecord [App.FilesSelected [Examples.book]]
           " Hello World " Q).
Defined.

Lemma share_no_id_witness :
  In Examples.greeting
    (fst (App.search Examples.everyRecord "Hello World"
            (App.run Examples.freshDraws Examples.everyRecord
               [App.FilesSelected [Examples.book]] App.initialState))) /\
  In Examples.farewell
    (snd (App.search Examples.everyRecord "Hello World"
            (App.run Examples.freshDraws Examples.everyRecord
               [App.FilesSelected [Examples.book]] App.initialState))) /\
  id Examples.greeting <> id Examples.farewell.
Proof.
  assert (H1 : In Examples.greeting
    (fst (App.search Examples.everyRecord "Hello World"
            (App.run Examples.freshDraws Examples.everyRecord
               [App.FilesSelected [Examples.book]] App.initialState))))
    by (left; reflexivity).
  assert (H2 : In Examples.farewell
    (snd (App.search Examples.everyRecord "Hello World"
            (App.run Examples.freshDraws Examples.everyRecord
               [App.FilesSelected [Examples.book]] App.initialState))))
    by (left; reflexivity).
  split; [exact H1|]. split; [exact H2|].
  exact (exact_and_fuzzy_share_no_id Examples.freshDraws
           Examples.everyRecord [App.FilesSelected [Examples.book]]
           "Hello World" Examples.greeting Examples.farewell H1 H2).
Defined.

Lemma empty_query_witness :
  JS.trim "   " = "" /\
  App.search Examples.everyRecord "   "
    (App.run Examples.freshDraws Examples.everyRecord
       [App.FilesSelected [Examples.book]] App.initialState)
  = ([], [Examples.greeting; Examples.farewell]).
Proof.
  split; [reflexivity|].
  apply (empty_query_browses_all Examples.everyRecord
           (App.run Examples.freshDraws Examples.everyRecord
              [App.FilesSelected [Examples.book]] App.initialState)
           "   ").
  reflexivity.
Defined.

Lemma failed_import_witness :
  (exists f, In f [Examples.bookUpper; Examples.broken] /\
             tabularized f = None) /\
  App.records
    (App.step Examples.freshDraws Examples.everyRecord
       (App.run Examples.freshDraws Examples.everyRecord
          [App.FilesSelected [Examples.book]] App.initialState)
       (App.FilesSelected [Examples.bookUpper; Examples.broken]))
  = [Examples.greeting; Examples.farewell].
Proof.
  assert (H : exists f, In f [Examples.bookUpper; Examples.broken] /\
                        tabularized f = None).
  { exists Examples.broken. split; [right; left|]; reflexivity. }
  split; [exact H|].
  apply (failed_import_commits_nothing Examples.freshDraws
           Examples.everyRecord
           (App.run Examples.freshDraws Examples.everyRecord
              [App.FilesSelected [Examples.book]] App.initialState)
           [Examples.bookUpper; Examples.broken] H).
Defined.

Lemma ids_unique_witness :
  (forall i, i < 4 -> Spec.isRandomSuffix (Examples.freshDraws i) = true) /\
  (forall i j, i < j < 4 -> Examples.freshDraws i <> Examples.freshDraws j) /\
  NoDup (map id
    (App.records
       (App.run Examples.freshDraws Examples.everyRecord
          [App.FilesSelected [Examples.book];
           App.FilesSelected [Examples.bookUpper]] App.initialState))).
Proof.
  assert (Shape : forall i, i < 4 ->
            Spec.isRandomSuffix (Examples.freshDraws i) = true).
  { intros i H. do 4 (destruct i as [|i]; [reflexivity|]). lia. }
  assert (Distinct : forall i j, i < j < 4 ->
            Examples.freshDraws i <> Examples.freshDraws j).
  { intros i j H E. apply String_of_nat_inj in E. lia. }
  split; [exact Shape|]. split; [exact Distinct|].
  exact (proj2 (ids_unique_while_draws_differ Examples.freshDraws
                  Examples.everyRecord)
           [App.FilesSelected [Examples.book];
            App.FilesSelected [Examples.bookUpper]] Shape Distinct).
Defined.

(** C7, as stated, fails: two workbooks imported together, each with a
    sheet "Sheet1", receive the same ids when the random suffixes
    repeat. *)
Lemma duplicate_ids_counterexample :
  Spec.isRandomSuffix (Examples.repeatedDraws 0) = true /\
  map id
    (App.records
       (App.run Examples.repeatedDraws Examples.everyRecord
          [App.FilesSelected [Examples.book; Examples.bookUpper]]
          App.initialState))
  = ["Sheet1-1-k3x9q2m1z"; "Sheet1-2-k3x9q2m1z";
     "Sheet1-1-k3x9q2m1z"; "Sheet1-2-k3x9q2m1z"] /\
  ~ NoDup (map id
    (App.records
       (App.run Examples.repeatedDraws Examples.everyRecord
          [App.FilesSelected [Examples.book; Examples.bookUpper]]
          App.initialState))).
Proof.
  split; [reflexivity|].
  assert (E : map id
    (App.records
       (App.run Examples.repeatedDraws Examples.everyRecord
          [App.FilesSelected [Examples.book; Examples.bookUpper]]
          App.initialState))
    = ["Sheet1-1-k3x9q2m1z"; "Sheet1-2-k3x9q2m1z";
       "Sheet1-1-k3x9q2m1z"; "Sheet1-2-k3x9q2m1z"]) by reflexivity.
  split; [exact E|].
  rewrite E. intros H. inversion H as [|x l N _]. subst.
  apply N. right. left. reflexivity.
Qed.

Lemma no_record_witness :
  App.records
    (App.run Examples.freshDraws Examples.everyRecord
       [App.FilesSelected [Examples.book]; App.Debounced "farewell";
        App.ResetClicked] App.initialState) = [] /\
  App.search Examples.everyRecord "farewell"
    (App.run Examples.freshDraws Examples.everyRecord
       [App.FilesSelected [Examples.book]; App.Debounced "farewell";
        App.ResetClicked] App.initialState) = ([], []).
Proof.
  assert (R : App.records
    (App.run Examples.freshDraws Examples.everyRecord
       [App.FilesSelected [Examples.book]; App.Debounced "farewell";
        App.ResetClicked] App.initialState) = []) by reflexivity.
  split; [exact R|].
  exact (no_record_no_result Examples.freshDraws Examples.everyRecord
           [App.FilesSelected [Examples.book]; App.Debounced "farewell";
            App.ResetClicked] "farewell" R).
Defined.

(* ================================================================== *)
(** ** The scenarios of the specification, evaluated *)
(* ================================================================== *)

(** Whole-word boundary: "id" in "a.id.b" and "user_id", not in "aidb". *)
Example whole_word_boundary :
  option_map (fun re => (RegExp.test re "a.id.b", RegExp.test re "aidb",
                         RegExp.test re "user_id"))
             (RegExp.RegExp (App.exactMatchPattern (App.escapeRegExp "id")))
  = Some (true, false, true).
Proof. reflexivity. Qed.

(** A query with a syntax character is matched literally. *)
Example escaped_query_is_literal :
  App.escapeRegExp "a.b(c)" = "a\.b\(c\)" /\
  option_map (fun re => (RegExp.test re "see A.B(C) now",
                         RegExp.test re "see axb(c) now"))
             (RegExp.RegExp
                (App.exactMatchPattern (App.escapeRegExp "a.b(c)")))
  = Some (true, false).
Proof. split; reflexivity. Qed.

(** Normalizing the sample sheet: the header row and the empty row are
    dropped, two records remain. *)
Example normalize_sample :
  ExcelParser.parseExcelFiles Examples.freshDraws 0 [Examples.book]
  = (Some [Examples.greeting; Examples.farewell], 2).
Proof. reflexivity. Qed.

(** A numeric cell is stored as [String] prints it; a falsy cell counts
    as empty. *)
Example cells_of_other_types :
  ExcelParser.parseExcelFiles Examples.freshDraws 0
    [mkFile "n.xlsx"
       (Some [("S", [ [CellNum "7" ""; CellNum "4" "2"; CellBool true;
                       CellNum "0" ""; CellNum "1" "e+21"];
                      [CellNum "8" ""; CellNum "0" ""; CellBool false] ])])]
  = (Some [mkRecord "S-0-0" "S" "7" "42" "true" [("col_4", "1e+21")]], 1).
Proof. reflexivity. Qed.

(** End to end: "Hello World" is an exact match of the greeting row and is
    removed from the fuzzy list; "Hell" has no exact match. *)
Example end_to_end :
  App.search Examples.everyRecord "Hello World"
    (App.run Examples.freshDraws Examples.everyRecord
       [App.FilesSelected [Examples.book]] App.initialState)
  = ([Examples.greeting], [Examples.farewell]) /\
  fst (App.search Examples.everyRecord "Hell"
         (App.run Examples.freshDraws Examples.everyRecord
            [App.FilesSelected [Examples.book]] App.initialState))
  = [].
Proof. split; reflexivity. Qed.

(** Reset: no record is left, and a search gives two empty lists. *)
Example after_reset :
  App.records
    (App.run Examples.freshDraws Examples.everyRecord
       [App.FilesSelected [Examples.book]; App.QueryTyped "Hello";
        App.Debounced "Hello"; App.ResetClicked] App.initialState) = [] /\
  App.search Examples.everyRecord "Hello"
    (App.run Examples.freshDraws Examples.everyRecord
       [App.FilesSelected [Examples.book]; App.QueryTyped "Hello";
        App.Debounced "Hello"; App.ResetClicked] App.initialState)
  = ([], []).
Proof. split; reflexivity. Qed.

(* ================================================================== *)
(** ** Further properties of the normalizer *)
(* ================================================================== *)

Section NormalizerMore.

Import ExcelParser.

Variable random : nat -> string.

Lemma String_truthy_nonempty (c : Cell) : truthy c = true -> String_ c <> "".
Proof.
  destruct c as [s|lead more|[|]|]; simpl; try discriminate.
  destruct s; [discriminate | intros _; discriminate].
Qed.

(** The entries of [collectNotes]: one per truthy cell, labelled with the
    column number. *)
Lemma collectNotes_In cells : forall i k v,
  In (k, v) (collectNotes i cells) <->
  exists j, j < List.length cells /\
            k = "col_" ++ JS.String_of_nat (i + j) /\
            truthy (nth j cells CellUndef) = true /\
            v = String_ (nth j cells CellUndef).
Proof.
  induction cells as [|c cells IH]; intros i k v; simpl.
  - split; [intros [] | intros (j & H & _); lia].
  - assert (Tail : In (k, v) (collectNotes (S i) cells) <->
      exists j, 0 < j /\ j < S (List.length cells) /\
                k = "col_" ++ JS.String_of_nat (i + j) /\
                truthy (nth j (c :: cells) CellUndef) = true /\
                v = String_ (nth j (c :: cells) CellUndef)).
    { rewrite IH. split.
      - intros (j & L & K & T & V). exists (S j).
        rewrite Nat.add_succ_r. simpl. repeat split; auto; lia.
      - intros (j & P & L & K & T & V). destruct j as [|j]; [lia|].
        exists j. rewrite Nat.add_succ_r in K. simpl in T, V.
        repeat split; auto; lia. }
    destruct (truthy c) eqn:Tc.
    + simpl. rewrite Tail. split.
      * intros [E | (j & P & L & K & T & V)].
        -- injection E as <- <-. exists 0. rewrite Nat.add_0_r. simpl.
           repeat split; auto; lia.
        -- exists j. auto.
      * intros (j & L & K & T & V). destruct j as [|j].
        -- left. rewrite Nat.add_0_r in K. simpl in V. now subst.
        -- right. exists (S j). repeat split; auto; lia.
    + rewrite Tail. split.
      * intros (j & P & L & K & T & V). exists j. auto.
      * intros (j & L & K & T & V). destruct j as [|j].
        -- simpl in T. congruence.
        -- exists (S j). repeat split; auto; lia.
Qed.

Lemma collectNotes_NoDup cells : forall i,
  NoDup (map fst (collectNotes i cells)).
Proof.
  induction cells as [|c cells IH]; intros i; simpl; [constructor|].
  destruct (truthy c); [|apply IH].
  simpl. constructor; [|apply IH].
  intros H. apply in_map_iff in H as ([k v] & E & H). simpl in E. subst k.
  apply collectNotes_In in H as (j & _ & K & _).
  injection K as K. apply String_of_nat_inj in K. lia.
Qed.

(** X1.  The notes of a pushed record have pairwise different labels, and
    they are exactly the truthy cells from column 3 on, each under the label
    made of its column number and with its rendering as value. *)
Theorem notes_are_the_filled_extra_columns sheetName rowIndex row suffix r :
  rowRecord sheetName rowIndex row suffix = Some r ->
  NoDup (map fst (notes r)) /\
  forall k v,
    In (k, v) (notes r) <->
    exists i, 3 <= i < List.length row /\
              k = "col_" ++ JS.String_of_nat i /\
              truthy (at_ row i) = true /\
              v = String_ (at_ row i).
Proof.
  intros H.
  assert (N : notes r = collectNotes 3 (skipn 3 row)).
  { unfold rowRecord in H.
    destruct (List.length row <? 2)%nat; [discriminate|].
    destruct (isHeaderRow rowIndex row); [discriminate|].
    destruct (negb (JS.truthy_string (keyVal row)) &&
              negb (JS.truthy_string (sourceVal row))); [discriminate|].
    injection H as <-. reflexivity. }
  rewrite N. split; [apply collectNotes_NoDup|].
  intros k v. rewrite collectNotes_In. unfold at_. split.
  - intros (j & L & K & T & V). rewrite length_skipn in L.
    rewrite nth_skipn in T, V. exists (3 + j). repeat split; auto; lia.
  - intros (i & L & K & T & V). exists (i - 3).
    rewrite length_skipn, nth_skipn.
    replace (3 + (i - 3)) with i by lia. repeat split; auto; lia.
Qed.

(** The part of the accumulator a row, a sheet or a file list starts from
    is carried through unchanged, in front. *)
Lemma pushRow_prefix sheetName rowIndex row pre l d :
  pushRow random sheetName rowIndex row ((pre ++ l)%list, d)
  = ((pre ++ fst (pushRow random sheetName rowIndex row (l, d)))%list,
     snd (pushRow random sheetName rowIndex row (l, d))).
Proof.
  unfold pushRow. cbn [fst snd].
  destruct (rowRecord sheetName rowIndex row (random d)); cbn [fst snd];
    [now rewrite List.app_assoc | reflexivity].
Qed.

Lemma forEachRow_prefix sheetName rows pre : forall rowIndex l d,
  forEachRow random sheetName rowIndex rows ((pre ++ l)%list, d)
  = ((pre ++ fst (forEachRow random sheetName rowIndex rows (l, d)))%list,
     snd (forEachRow random sheetName rowIndex rows (l, d))).
Proof.
  induction rows as [|row rows IH]; intros rowIndex l d; simpl;
    [reflexivity|].
  rewrite pushRow_prefix.
  destruct (pushRow random sheetName rowIndex row (l, d)) as [l' d'].
  apply IH.
Qed.

Lemma forEachSheet_prefix sheets pre : forall l d,
  forEachSheet random sheets ((pre ++ l)%list, d)
  = ((pre ++ fst (forEachSheet random sheets (l, d)))%list,
     snd (forEachSheet random sheets (l, d))).
Proof.
  induction sheets as [|[sheetName rows] sheets IH]; intros l d; simpl;
    [reflexivity|].
  rewrite forEachRow_prefix.
  destruct (forEachRow random sheetName 0 rows (l, d)) as [l' d'].
  apply IH.
Qed.

Lemma forEachFile_prefix files pre : forall l d,
  forEachFile random files ((pre ++ l)%list, d)
  = (option_map (app pre) (fst (forEachFile random files (l, d))),
     snd (forEachFile random files (l, d))).
Proof.
  induction files as [|f files IH]; intros l d; simpl; [reflexivity|].
  destruct (tabularized f) as [workbook|]; [|reflexivity].
  rewrite forEachSheet_prefix.
  destruct (forEachSheet random workbook (l, d)) as [l' d'].
  apply IH.
Qed.

Lemma forEachFile_app files1 : forall files2 acc,
  forEachFile random (files1 ++ files2) acc
  = match forEachFile random files1 acc with
    | (Some recs, d) => forEachFile random files2 (recs, d)
    | (None, d) => (None, d)
    end.
Proof.
  induction files1 as [|f files1 IH]; intros files2 acc; simpl.
  - now destruct acc.
  - destruct (tabularized f) as [workbook|]; [apply IH | reflexivity].
Qed.

(** X2.  Parsing two file lists in one call gives the records of the first
    followed by the records of the second, the second list being parsed
    from the draw count the first one ends with. *)
Theorem parse_of_joined_file_lists draws files1 files2 recs1 draws1
    recs2 draws2 :
  parseExcelFiles random draws files1 = (Some recs1, draws1) ->
  parseExcelFiles random draws1 files2 = (Some recs2, draws2) ->
  parseExcelFiles random draws (files1 ++ files2)
  = (Some (recs1 ++ recs2)%list, draws2).
Proof.
  unfold parseExcelFiles. intros H1 H2.
  rewrite forEachFile_app, H1.
  rewrite <- (List.app_nil_r recs1) at 1.
  rewrite forEachFile_prefix, H2. reflexivity.
Qed.

(** Counting records, draws and rows. *)
Lemma pushRow_count sheetName rowIndex row acc :
  let out := pushRow random sheetName rowIndex row acc in
  List.length (fst out) + snd acc = List.length (fst acc) + snd out /\
  List.length (fst acc) <= List.length (fst out) <= S (List.length (fst acc)).
Proof.
  unfold pushRow.
  destruct (rowRecord sheetName rowIndex row (random (snd acc)));
    cbn [fst snd]; [rewrite length_app; simpl|]; lia.
Qed.

Lemma forEachRow_count sheetName rows : forall rowIndex acc,
  let out := forEachRow random sheetName rowIndex rows acc in
  List.length (fst out) + snd acc = List.length (fst acc) + snd out /\
  List.length (fst acc) <= List.length (fst out)
    <= List.length (fst acc) + List.length rows.
Proof.
  induction rows as [|row rows IH]; intros rowIndex acc; simpl; [lia|].
  pose proof (pushRow_count sheetName rowIndex row acc) as P.
  specialize (IH (S rowIndex) (pushRow random sheetName rowIndex row acc)).
  simpl in *. lia.
Qed.

Lemma forEachSheet_count sheets : forall acc,
  let out := forEachSheet random sheets acc in
  List.length (fst out) + snd acc = List.length (fst acc) + snd out /\
  List.length (fst acc) <= List.length (fst out)
    <= List.length (fst acc) + Measure.workbookRows sheets.
Proof.
  induction sheets as [|[sheetName rows] sheets IH]; intros acc;
    unfold Measure.workbookRows; simpl; [lia|].
  pose proof (forEachRow_count sheetName rows 0 acc) as P.
  specialize (IH (forEachRow random sheetName 0 rows acc)).
  unfold Measure.workbookRows in IH. simpl in *. lia.
Qed.

Lemma forEachFile_count files : forall acc recs,
  fst (forEachFile random files acc) = Some recs ->
  List.length recs + snd acc
    = List.length (fst acc) + snd (forEachFile random files acc) /\
  List.length (fst acc) <= List.length recs
    <= List.length (fst acc) + Measure.fileRows files.
Proof.
  induction files as [|f files IH]; intros acc recs;
    unfold Measure.fileRows; simpl.
  - intros [= <-]. lia.
  - destruct (tabularized f) as [workbook|]; [|discriminate].
    intros H. apply IH in H.
    pose proof (forEachSheet_count workbook acc) as P.
    unfold Measure.fileRows in H. simpl in *. lia.
Qed.

(** X3.  A successful parse draws one random number per record it returns,
    and returns at most one record per row of the files. *)
Theorem one_draw_per_record draws files recs draws' :
  parseExcelFiles random draws files = (Some recs, draws') ->
  draws' = draws + List.length recs /\
  List.length recs <= Measure.fileRows files.
Proof.
  unfold parseExcelFiles. intros H.
  destruct (forEachFile_count files ([], draws) recs) as [E L].
  { now rewrite H. }
  rewrite H in E. simpl in *. lia.
Qed.



(** Where the sheet name of a record comes from. *)
Lemma forEachRow_names (Q : string -> Prop) sheetName rows :
  forall rowIndex acc,
  Q sheetName ->
  Forall (fun r => Q (taskName r) /\
                   JS.startsWith (taskName r ++ "-") (id r) = true)
         (fst acc) ->
  Forall (fun r => Q (taskName r) /\
                   JS.startsWith (taskName r ++ "-") (id r) = true)
         (fst (forEachRow random sheetName rowIndex rows acc)).
Proof.
  induction rows as [|row rows IH]; intros rowIndex acc HQ H; simpl;
    [exact H|].
  apply IH; [exact HQ|]. unfold pushRow.
  destruct (rowRecord sheetName rowIndex row (random (snd acc))) as [r|]
    eqn:E; [|exact H].
  apply rowRecord_Some in E as (_ & _ & _ & I & T & _).
  cbn [fst]. apply Forall_app. split; [exact H|].
  constructor; [|constructor]. rewrite T, I. split; [exact HQ|].
  unfold makeId. clear.
  induction sheetName as [|c s IHs]; simpl; [reflexivity|].
  now rewrite Ascii.eqb_refl.
Qed.

Lemma forEachSheet_names (Q : string -> Prop) sheets : forall acc,
  (forall n, In n (map fst sheets) -> Q n) ->
  Forall (fun r => Q (taskName r) /\
                   JS.startsWith (taskName r ++ "-") (id r) = true)
         (fst acc) ->
  Forall (fun r => Q (taskName r) /\
                   JS.startsWith (taskName r ++ "-") (id r) = true)
         (fst (forEachSheet random sheets acc)).
Proof.
  induction sheets as [|[sheetName rows] sheets IH]; intros acc HQ H;
    simpl; [exact H|].
  apply IH; [intros n Hn; apply HQ; simpl; auto|].
  apply forEachRow_names; [apply HQ; simpl; auto | exact H].
Qed.

Lemma forEachFile_names (Q : string -> Prop) files : forall acc recs,
  (forall n, In n (Measure.sheetNames files) -> Q n) ->
  Forall (fun r => Q (taskName r) /\
                   JS.startsWith (taskName r ++ "-") (id r) = true)
         (fst acc) ->
  fst (forEachFile random files acc) = Some recs ->
  Forall (fun r => Q (taskName r) /\
                   JS.startsWith (taskName r ++ "-") (id r) = true)
         recs.
Proof.
  induction files as [|f files IH]; intros acc recs HQ H; simpl.
  - now intros [= <-].
  - unfold Measure.sheetNames in HQ. simpl in HQ.
    destruct (tabularized f) as [workbook|]; [|discriminate].
    apply IH.
    + intros n Hn. apply HQ. apply in_or_app. now right.
    + apply forEachSheet_names; [|exact H].
      intros n Hn. apply HQ. apply in_or_app. now left.
Qed.

(** X5.  Every record a parse returns is filed under the name of one of
    the sheets of the files, and its id starts with that name and a
    dash. *)
Theorem records_carry_a_sheet_name draws files recs draws' :
  parseExcelFiles random draws files = (Some recs, draws') ->
  Forall (fun r => In (taskName r) (Measure.sheetNames files) /\
                   JS.startsWith (taskName r ++ "-") (id r) = true) recs.
Proof.
  unfold parseExcelFiles. intros H.
  apply (forEachFile_names (fun n => In n (Measure.sheetNames files))
           files ([], draws) recs).
  - auto.
  - constructor.
  - now rewrite H.
Qed.

End NormalizerMore.

(* ================================================================== *)
(** ** Further properties of the search *)
(* ================================================================== *)

Section SearchMore.

Import ExactRegex App.

Variable random : nat -> string.
Variable Fuse_search :
  list TranslationRecord -> string -> list TranslationRecord.

(** A text that is the query, case-insensitively, is accepted whole. *)
Lemma test_exactRegex_whole q text :
  Spec.sameIgnoringCase text q = true ->
  RegExp.test (exactRegex q) text = true.
Proof.
  intros E. apply test_exactRegex. exists "", text, "".
  rewrite append_empty_r. repeat split; auto; now left.
Qed.

(** On the letters A..Z the two foldings of the program do the same. *)
Lemma sameAsciiLetter_folds a b :
  Measure.sameAsciiLetter a b = true ->
  JS.toLowerChar a = JS.toLowerChar b /\
  RegExp.Canonicalize a = RegExp.Canonicalize b.
Proof.
  assert (H : forall a, forallb (fun b =>
    implb (Measure.sameAsciiLetter a b)
          (Ascii.eqb (JS.toLowerChar a) (JS.toLowerChar b) &&
           (RegExp.Canonicalize a =? RegExp.Canonicalize b)%N)) allAscii
    = true).
  { apply forall_ascii. vm_compute. reflexivity. }
  intros S. specialize (H a). rewrite forallb_forall in H.
  specialize (H b). rewrite S in H. cbn [implb] in H.
  assert (I : In b allAscii).
  { unfold allAscii. rewrite <- (ascii_nat_embedding b).
    apply in_map, in_seq. pose proof (nat_ascii_bounded b). lia. }
  apply H in I. apply andb_true_iff in I as [L C].
  apply Ascii.eqb_eq in L. apply N.eqb_eq in C. auto.
Qed.

Lemma sameUpToAsciiCase_folds s : forall t,
  Measure.sameUpToAsciiCase s t = true ->
  JS.toLowerCase s = JS.toLowerCase t /\
  (forall text, Spec.sameIgnoringCase text s = Spec.sameIgnoringCase text t) /\
  (s = "" <-> t = "").
Proof.
  induction s as [|a s IH]; intros [|b t] H; simpl in H; try discriminate.
  - repeat split; auto.
  - apply andb_true_iff in H as [L H].
    apply sameAsciiLetter_folds in L as [L C].
    destruct (IH t H) as (E & F & _).
    split; [simpl; now rewrite L, E|]. split.
    + intros [|x text]; simpl; [reflexivity|]. now rewrite C, F.
    + split; discriminate.
Qed.

Lemma test_exactRegex_variant q1 q2 text :
  Measure.sameUpToAsciiCase q1 q2 = true ->
  RegExp.test (exactRegex q1) text = RegExp.test (exactRegex q2) text.
Proof.
  intros E. apply sameUpToAsciiCase_folds in E as (_ & F & _).
  apply Bool.eq_iff_eq_true. rewrite !test_exactRegex.
  unfold Spec.wholeWord.
  split; intros (b & o & a & T & S & L & R); exists b, o, a;
    repeat split; auto; [now rewrite <- F | now rewrite F].
Qed.

Lemma separatorFree_append a b :
  Measure.separatorFree (a ++ b)
  = Measure.separatorFree a && Measure.separatorFree b.
Proof.
  induction a as [|c a IH]; simpl; [reflexivity|].
  now rewrite IH, andb_assoc.
Qed.

(** X6.  [escapeRegExp] makes every query safe: read back by the pattern
    lexer the escaped query is the characters of the query, each a literal,
    and the constructor succeeds on the pattern built from it. *)
Theorem escaped_query_always_compiles (q : string) :
  RegExp.lex None (escapeRegExp q)
    = Some (map RegExp.TChar (list_ascii_of_string q)) /\
  exists re,
    RegExp.RegExp (exactMatchPattern (escapeRegExp q)) = Some re.
Proof.
  split.
  - rewrite <- (append_empty_r (escapeRegExp q)), lex_escapeRegExp.
    cbn. now rewrite List.app_nil_r.
  - exists (exactRegex q). apply RegExp_exactMatchPattern.
Qed.

(** X8.  On a text without separator characters the expression accepts
    exactly the texts that are the query case-insensitively, from the first
    character to the last: a query is never found inside a longer word. *)
Theorem separator_free_text_matches_only_whole q re text :
  RegExp.RegExp (exactMatchPattern (escapeRegExp q)) = Some re ->
  Measure.separatorFree text = true ->
  RegExp.test re text = Spec.sameIgnoringCase text q.
Proof.
  rewrite RegExp_exactMatchPattern. intros [= <-] F.
  apply Bool.eq_iff_eq_true. rewrite test_exactRegex.
  split.
  - intros (before & occ & after & -> & L & B & A).
    rewrite !separatorFree_append in F.
    apply andb_true_iff in F as [Fb F]. apply andb_true_iff in F as [_ Fa].
    destruct B as [-> | (p & c & -> & C)].
    + destruct A as [-> | (c & p & -> & C)].
      * now rewrite append_empty_r.
      * simpl in Fa. now rewrite C in Fa.
    + rewrite separatorFree_append in Fb. simpl in Fb.
      rewrite C in Fb. simpl in Fb. now rewrite andb_false_r in Fb.
  - intros E. apply test_exactRegex. now apply test_exactRegex_whole.
Qed.

(** What the effect leaves in the two lists depends on the record set, the
    debounced query and the lists before, on nothing else. *)
Lemma searchEffect_lists_congr a b :
  records a = records b -> debouncedQuery a = debouncedQuery b ->
  exactMatches a = exactMatches b -> fuzzyMatches a = fuzzyMatches b ->
  exactMatches (searchEffect Fuse_search a)
    = exactMatches (searchEffect Fuse_search b) /\
  fuzzyMatches (searchEffect Fuse_search a)
    = fuzzyMatches (searchEffect Fuse_search b).
Proof.
  destruct a as [ra pa sa ta ea fa da na], b as [rb pb sb tb eb fb db nb].
  cbn [records debouncedQuery exactMatches fuzzyMatches].
  intros -> -> -> ->.
  unfold searchEffect, fuse. cbn [records debouncedQuery].
  destruct (JS.truthy_string (JS.trim db)); cbn [negb];
    [|split; reflexivity].
  destruct rb as [|r rb]; [split; reflexivity|].
  destruct (searchLists (Fuse_search (r :: rb)) (r :: rb) (JS.trim db))
    as [[e f]|]; split; reflexivity.
Qed.

Lemma searchEffect_idempotent st :
  searchEffect Fuse_search (searchEffect Fuse_search st)
  = searchEffect Fuse_search st.
Proof.
  destruct (string_dec (JS.trim (debouncedQuery st)) "") as [Q|Q].
  - rewrite (searchEffect_browse Fuse_search st Q).
    now rewrite searchEffect_browse by (cbn; exact Q).
  - destruct (records st) eqn:R.
    + now rewrite !(searchEffect_no_index Fuse_search st Q R).
    + assert (R' : records st <> []) by congruence.
      rewrite (searchEffect_search Fuse_search st Q R').
      now rewrite searchEffect_search by (cbn; assumption).
Qed.

(** The effect has nothing left to do in a state a session reaches. *)
Lemma effect_is_settled events :
  exactMatches (searchEffect Fuse_search
                  (run random Fuse_search events initialState))
    = exactMatches (run random Fuse_search events initialState) /\
  fuzzyMatches (searchEffect Fuse_search
                  (run random Fuse_search events initialState))
    = fuzzyMatches (run random Fuse_search events initialState).
Proof.
  apply (run_invariant random Fuse_search (fun st =>
    exactMatches (searchEffect Fuse_search st) = exactMatches st /\
    fuzzyMatches (searchEffect Fuse_search st) = fuzzyMatches st)).
  - split; reflexivity.
  - intros st e [IE IF].
    assert (Keep : forall st' : AppState,
      records st' = records st -> debouncedQuery st' = debouncedQuery st ->
      exactMatches st' = exactMatches st ->
      fuzzyMatches st' = fuzzyMatches st ->
      exactMatches (searchEffect Fuse_search st') = exactMatches st' /\
      fuzzyMatches (searchEffect Fuse_search st') = fuzzyMatches st').
    { intros st' R D E F.
      destruct (searchEffect_lists_congr st' st R D E F) as [-> ->].
      now rewrite IE, IF, E, F. }
    destruct e as [files | q | q | ]; cbn [step].
    + rewrite handleFiles_eq.
      destruct (fst (ExcelParser.parseExcelFiles random (randomDraws st)
                       files)).
      * now rewrite searchEffect_idempotent.
      * apply Keep; reflexivity.
    + apply Keep; reflexivity.
    + destruct (q =? debouncedQuery st); [auto|].
      now rewrite searchEffect_idempotent.
    + now rewrite searchEffect_idempotent.
Qed.

(** X9.  In every state a session reaches, the two lists on display are
    what a search of the current record set with the current debounced
    query gives: no event leaves them out of date. *)
Theorem shown_lists_are_up_to_date events :
  search Fuse_search
    (debouncedQuery (run random Fuse_search events initialState))
    (run random Fuse_search events initialState)
  = (exactMatches (run random Fuse_search events initialState),
     fuzzyMatches (run random Fuse_search events initialState)).
Proof.
  pose proof (effect_is_settled events) as Inv.
  unfold search.
  set (st := run random Fuse_search events initialState) in *.
  destruct (searchEffect_lists_congr
              (setDebouncedQuery (debouncedQuery st) st) st)
    as [-> ->]; try reflexivity.
  destruct Inv as [-> ->]. reflexivity.
Qed.

(** X23.  Once the debounce has caught up with the input, browse mode
    shows what the lists hold: with a blank query there is no exact match
    and the fuzzy list is the record set, which is what the screen
    renders. *)
Theorem browse_mode_shows_the_record_set events :
  debouncedQuery (run random Fuse_search events initialState)
    = searchQuery (run random Fuse_search events initialState) ->
  Screen.isSearchMode (run random Fuse_search events initialState) = false ->
  exactMatches (run random Fuse_search events initialState) = [] /\
  fuzzyMatches (run random Fuse_search events initialState)
    = records (run random Fuse_search events initialState).
Proof.
  pose proof (effect_is_settled events) as [IE IF].
  set (st := run random Fuse_search events initialState) in *.
  intros D M. unfold Screen.isSearchMode in M. rewrite <- D in M.
  assert (Q : JS.trim (debouncedQuery st) = "").
  { destruct (JS.trim (debouncedQuery st)); [reflexivity | discriminate M]. }
  rewrite (searchEffect_browse Fuse_search st Q) in IE, IF.
  cbn in IE, IF. now rewrite <- IE, <- IF.
Qed.

(** X10.  The exact-match list does not depend on the case of the letters
    A..Z of the query: two queries whose trimmed texts differ at most in
    that give the same exact-match list. *)
Theorem exact_matches_ignore_query_case st q1 q2 :
  Measure.sameUpToAsciiCase (JS.trim q1) (JS.trim q2) = true ->
  fst (search Fuse_search q1 st) = fst (search Fuse_search q2 st).
Proof.
  intros V. pose proof (sameUpToAsciiCase_folds _ _ V) as (E & _ & N).
  unfold search. cbn [fst].
  destruct (string_dec (JS.trim q1) "") as [Q1|Q1].
  - assert (Q2 : JS.trim q2 = "") by now apply N.
    now rewrite !searchEffect_browse by (cbn; assumption).
  - assert (Q2 : JS.trim q2 <> "") by (intros Q2; now apply Q1, N).
    destruct (records st) eqn:R.
    + now rewrite !searchEffect_no_index by (cbn; assumption).
    + assert (R1 : records (setDebouncedQuery q1 st) <> [])
        by (cbn; congruence).
      assert (R2 : records (setDebouncedQuery q2 st) <> [])
        by (cbn; congruence).
      rewrite (searchEffect_search Fuse_search
                 (setDebouncedQuery q1 st) Q1 R1).
      rewrite (searchEffect_search Fuse_search
                 (setDebouncedQuery q2 st) Q2 R2).
      cbn [fst snd exactMatches fuzzyMatches setMatches records debouncedQuery
           setDebouncedQuery]. apply filter_ext. intros r. unfold isExact.
      now rewrite E, !(test_exactRegex_variant _ _ _ V).
Qed.

(** X11.  White space around the query is ignored: a query and its trimmed
    form give the same two lists. *)
Theorem surrounding_space_is_ignored st q :
  search Fuse_search q st = search Fuse_search (JS.trim q) st.
Proof.
  unfold search.
  destruct (string_dec (JS.trim q) "") as [Q|Q].
  - assert (Q' : JS.trim (JS.trim q) = "") by now rewrite trim_idempotent.
    rewrite (searchEffect_browse Fuse_search (setDebouncedQuery q st) Q).
    now rewrite
      (searchEffect_browse Fuse_search (setDebouncedQuery (JS.trim q) st) Q').
  - assert (Q' : JS.trim (JS.trim q) <> "") by now rewrite trim_idempotent.
    destruct (records st) eqn:R.
    + rewrite (searchEffect_no_index Fuse_search
                 (setDebouncedQuery q st) Q R).
      now rewrite (searchEffect_no_index Fuse_search
                     (setDebouncedQuery (JS.trim q) st) Q' R).
    + assert (R1 : records (setDebouncedQuery q st) <> [])
        by (cbn; congruence).
      assert (R2 : records (setDebouncedQuery (JS.trim q) st) <> [])
        by (cbn; congruence).
      assert (Q2 : JS.trim (debouncedQuery
                              (setDebouncedQuery (JS.trim q) st)) <> "")
        by exact Q'.
      rewrite (searchEffect_search Fuse_search
                 (setDebouncedQuery q st) Q R1).
      rewrite (searchEffect_search Fuse_search
                 (setDebouncedQuery (JS.trim q) st) Q2 R2).
      cbn [fst snd exactMatches fuzzyMatches setMatches records debouncedQuery
           setDebouncedQuery].
      now rewrite trim_idempotent.
Qed.

(** X12.  In search mode the fuzzy list is what the index returns for the
    trimmed query, in the order of the index, without the items whose id is
    the id of an exact match, and without any other loss. *)
Theorem fuzzy_list_is_the_index_result_deduplicated st q :
  JS.trim q <> "" -> records st <> [] ->
  exists keep,
    snd (search Fuse_search q st)
      = filter keep (Fuse_search (records st) (JS.trim q)) /\
    forall item,
      keep item = true <->
      ~ In (id item) (map id (fst (search Fuse_search q st))).
Proof.
  intros Q R. unfold search.
  assert (R' : records (setDebouncedQuery q st) <> []) by exact R.
  rewrite (searchEffect_search Fuse_search (setDebouncedQuery q st) Q R').
  cbn [fst snd exactMatches fuzzyMatches setMatches records debouncedQuery
           setDebouncedQuery].
  eexists. split; [reflexivity|]. intros item. cbn beta.
  rewrite negb_true_iff, <- Bool.not_true_iff_false, Set_has_In.
  reflexivity.
Qed.

End SearchMore.

(* ================================================================== *)
(** ** Further properties of a session *)
(* ================================================================== *)

Section SessionMore.

Import ExcelParser App.

Variable random : nat -> string.
Variable Fuse_search :
  list TranslationRecord -> string -> list TranslationRecord.

(** A property of every pushed record holds of the whole record set,
    whatever happens. *)
Lemma records_Forall (P : TranslationRecord -> Prop) :
  (forall sheetName rowIndex row suffix r,
     rowRecord sheetName rowIndex row suffix = Some r -> P r) ->
  forall events,
    Forall P (records (run random Fuse_search events initialState)).
Proof.
  intros HP.
  apply (run_invariant random Fuse_search
           (fun st => Forall P (records st))); [constructor|].
  intros st e IH. destruct e as [files | q | q | ]; cbn [step].
  - rewrite handleFiles_eq.
    destruct (fst (parseExcelFiles random (randomDraws st) files))
      as [recs|] eqn:E.
    + rewrite searchEffect_records. cbn. apply Forall_app.
      split; [exact IH|].
      eapply (parseExcelFiles_Forall random P HP); exact E.
    + exact IH.
  - exact IH.
  - destruct (q =? debouncedQuery st); [exact IH|].
    now rewrite searchEffect_records.
  - rewrite searchEffect_records. constructor.
Qed.

Lemma rowRecord_notes sheetName rowIndex row suffix r :
  rowRecord sheetName rowIndex row suffix = Some r ->
  notes r = collectNotes 3 (skipn 3 row).
Proof.
  unfold rowRecord.
  destruct (List.length row <? 2)%nat; [discriminate|].
  destruct (isHeaderRow rowIndex row); [discriminate|].
  destruct (negb (JS.truthy_string (keyVal row)) &&
            negb (JS.truthy_string (sourceVal row))); [discriminate|].
  intros H. injection H as <-. reflexivity.
Qed.

(** X13.  Every record of the record set has a key or a source text, so
    its card never shows the two placeholders together. *)
Theorem stored_records_have_content events :
  Forall (fun r =>
            (key r <> "" \/ sourceText r <> "") /\
            ResultCard.showsNoKey r && ResultCard.showsEmptySource r = false)
         (records (run random Fuse_search events initialState)).
Proof.
  apply records_Forall. intros sheetName rowIndex row suffix r H.
  apply rowRecord_Some in H as (_ & _ & N & _ & _ & K & S).
  unfold ResultCard.showsNoKey, ResultCard.showsEmptySource.
  rewrite K, S.
  destruct (keyVal row) eqn:Ek; destruct (sourceVal row) eqn:Es; simpl.
  - exfalso. auto.
  - split; [right; discriminate | reflexivity].
  - split; [left; discriminate | reflexivity].
  - split; [left; discriminate | reflexivity].
Qed.

(** X14.  No note of a record of the record set has an empty value, and
    the note line of its card, when there is one, is not empty. *)
Theorem stored_notes_are_never_empty events :
  Forall (fun r => Forall (fun note => snd note <> "") (notes r) /\
                   ResultCard.notesPreview r <> Some "")
         (records (run random Fuse_search events initialState)).
Proof.
  apply records_Forall. intros sheetName rowIndex row suffix r H.
  assert (V : Forall (fun note => snd note <> "") (notes r)).
  { rewrite (rowRecord_notes _ _ _ _ _ H).
    apply Forall_forall. intros [k v] Hin.
    apply collectNotes_In in Hin as (j & _ & _ & T & ->).
    simpl. now apply String_truthy_nonempty. }
  split; [exact V|].
  unfold ResultCard.notesPreview.
  destruct (notes r) as [|[k v] ns]; [discriminate|].
  inversion V as [|x l Hv _]; subst. simpl in Hv.
  intros E. injection E as E. simpl in E.
  destruct v as [|c v]; [now apply Hv|].
  destruct (map snd ns); discriminate E.
Qed.

(** X16.  Reset empties the record set, both lists, the statistics and the
    query, and an import after it leaves exactly the records of that
    import. *)
Theorem reset_starts_over st :
  records (step random Fuse_search st ResetClicked) = [] /\
  exactMatches (step random Fuse_search st ResetClicked) = [] /\
  fuzzyMatches (step random Fuse_search st ResetClicked) = [] /\
  stats (step random Fuse_search st ResetClicked) = None /\
  searchQuery (step random Fuse_search st ResetClicked) = "" /\
  forall files,
    records (step random Fuse_search
               (step random Fuse_search st ResetClicked)
               (FilesSelected files))
    = match fst (parseExcelFiles random (randomDraws st) files) with
      | Some newRecords => newRecords
      | None => []
      end.
Proof.
  cbn [step].
  assert (E : searchEffect Fuse_search (handleReset st) = handleReset st).
  { destruct (string_dec (JS.trim (debouncedQuery (handleReset st))) "")
      as [Q|Q].
    - now rewrite (searchEffect_browse Fuse_search _ Q).
    - now apply searchEffect_no_index. }
  rewrite E. repeat split.
  intros files. rewrite handleFiles_eq. cbn [handleReset randomDraws].
  destruct (fst (parseExcelFiles random (randomDraws st) files));
    [|reflexivity].
  now rewrite searchEffect_records.
Qed.

(** X17.  Without a reset the record set only grows at its end: after any
    events other than Reset the earlier records are still there, first and
    in their order. *)
Theorem records_only_grow_without_reset events : forall st,
  Measure.noReset events = true ->
  exists added,
    records (run random Fuse_search events st)
    = (records st ++ added)%list.
Proof.
  induction events as [|e events IH]; intros st H.
  - exists []. cbn. now rewrite List.app_nil_r.
  - cbn in H. apply andb_true_iff in H as [He H].
    change (run random Fuse_search (e :: events) st)
      with (run random Fuse_search events (step random Fuse_search st e)).
    destruct (IH (step random Fuse_search st e) H) as (added & ->).
    assert (S : exists new,
      records (step random Fuse_search st e) = (records st ++ new)%list).
    { destruct e as [files | q | q | ]; cbn [step]; try discriminate He.
      - rewrite handleFiles_eq.
        destruct (fst (parseExcelFiles random (randomDraws st) files))
          as [new|].
        + exists new. now rewrite searchEffect_records.
        + exists []. cbn. now rewrite List.app_nil_r.
      - exists []. cbn. now rewrite List.app_nil_r.
      - exists []. destruct (q =? debouncedQuery st);
          [|rewrite searchEffect_records]; cbn;
          now rewrite List.app_nil_r. }
    destruct S as (new & ->). exists (new ++ added)%list.
    now rewrite List.app_assoc.
Qed.



End SessionMore.

Section TwoIndexes.

Import ExcelParser App.

Variable random : nat -> string.
Variables Fuse1 Fuse2 :
  list TranslationRecord -> string -> list TranslationRecord.

Lemma searchEffect_agree a b :
  Measure.agreeButFuzzy a b ->
  Measure.agreeButFuzzy (searchEffect Fuse1 a) (searchEffect Fuse2 b).
Proof.
  destruct a as [ra pa sa ta ea fa da na], b as [rb pb sb tb eb fb db nb].
  unfold Measure.agreeButFuzzy.
  cbn [records isProcessing searchQuery stats exactMatches debouncedQuery
       randomDraws].
  intros (-> & -> & -> & -> & -> & -> & ->).
  unfold searchEffect, fuse. cbn [records debouncedQuery].
  destruct (JS.truthy_string (JS.trim db)); cbn [negb];
    [|repeat split].
  destruct rb as [|r rb]; [repeat split|].
  rewrite !searchLists_eq. repeat split.
Qed.

(** X15.  The fuzzy index has no say in anything but the fuzzy list: two
    sessions with the same events and different indexes agree on the record
    set, the exact-match list and every other part of the state. *)
Theorem only_the_fuzzy_list_depends_on_the_index events :
  Measure.agreeButFuzzy (run random Fuse1 events initialState)
                        (run random Fuse2 events initialState).
Proof.
  unfold run.
  assert (G : forall a b, Measure.agreeButFuzzy a b ->
    Measure.agreeButFuzzy (fold_left (step random Fuse1) events a)
                          (fold_left (step random Fuse2) events b)).
  { induction events as [|e events' IH]; intros a b H; [exact H|].
    cbn [fold_left]. apply IH.
    destruct e as [files | q | q | ]; cbn [step].
    - rewrite !handleFiles_eq.
      pose proof H as (R & P & S & T & E & D & N).
      rewrite N.
      destruct (fst (parseExcelFiles random (randomDraws b) files)).
      + apply searchEffect_agree. unfold Measure.agreeButFuzzy. cbn.
        rewrite R, S, E, D. repeat split.
      + unfold Measure.agreeButFuzzy. cbn. rewrite R, S, T, E, D.
        repeat split.
    - pose proof H as (R & P & S & T & E & D & N).
      unfold Measure.agreeButFuzzy. cbn. repeat split; assumption.
    - pose proof H as (R & P & S & T & E & D & N). rewrite D.
      destruct (q =? debouncedQuery b); [exact H|].
      apply searchEffect_agree. unfold Measure.agreeButFuzzy. cbn.
      repeat split; assumption.
    - pose proof H as (R & P & S & T & E & D & N).
      apply searchEffect_agree. unfold Measure.agreeButFuzzy. cbn.
      repeat split; assumption. }
  apply G. unfold Measure.agreeButFuzzy. repeat split.
Qed.

End TwoIndexes.

(* ================================================================== *)
(** ** Further properties of the drop zone and of the result card *)
(* ================================================================== *)

Section ViewMore.

Import DropZone.

Lemma endsWith_spec (p s : string) :
  JS.endsWith p s = true <-> exists stem, s = stem ++ p.
Proof.
  induction s as [|c s IH]; simpl.
  - rewrite orb_false_r, String.eqb_eq. split.
    + intros ->. now exists "".
    + intros ([|d stem] & E); [exact (eq_sym E) | discriminate E].
  - rewrite orb_true_iff, String.eqb_eq, IH. split.
    + intros [-> | (stem & ->)]; [now exists "" | now exists (String c stem)].
    + intros ([|d stem] & E).
      * left. exact (eq_sym E).
      * right. injection E as -> ->. now exists stem.
Qed.

(** X20.  The drop path accepts a file exactly when its name ends in
    .xlsx, .xls or .csv, written in lower case, whatever stands before. *)
Theorem accepted_names (f : File) :
  hasSheetExtension f = true <->
  exists stem,
    name f = stem ++ ".xlsx" \/ name f = stem ++ ".xls" \/
    name f = stem ++ ".csv".
Proof.
  unfold hasSheetExtension. rewrite !orb_true_iff, !endsWith_spec. split.
  - intros [[(stem & E) | (stem & E)] | (stem & E)]; exists stem; auto.
  - intros (stem & [E | [E | E]]); eauto.
Qed.

(** X21.  Neither input path ever hands an empty list to the import.  A
    drop hands over the dropped files with an accepted name, in their
    order, and nothing at all while an import is running or when no name
    is accepted; the picker hands over its selection as it is. *)
Theorem what_the_input_paths_deliver :
  (forall isProcessing dropped files,
     handleDrop isProcessing dropped = Some files ->
     isProcessing = false /\ files <> [] /\
     files = filter hasSheetExtension dropped /\
     Forall (fun f => hasSheetExtension f = true) files) /\
  (forall dropped, handleDrop true dropped = None) /\
  (forall dropped,
     Forall (fun f => hasSheetExtension f = false) dropped ->
     handleDrop false dropped = None) /\
  (forall targetFiles files,
     handleFileInput targetFiles = Some files ->
     files <> [] /\ targetFiles = Some files).
Proof.
  repeat split.
  - unfold handleDrop in H. now destruct isProcessing.
  - unfold handleDrop in H. destruct isProcessing; [discriminate|].
    destruct (filter hasSheetExtension dropped); [discriminate|].
    injection H as <-. discriminate.
  - unfold handleDrop in H. destruct isProcessing; [discriminate|].
    destruct (filter hasSheetExtension dropped); [discriminate|].
    now injection H as <-.
  - unfold handleDrop in H. destruct isProcessing; [discriminate|].
    destruct (filter hasSheetExtension dropped) eqn:E; [discriminate|].
    injection H as <-. rewrite <- E. apply Forall_forall.
    intros x Hx. now apply filter_In in Hx.
  - intros dropped H. unfold handleDrop.
    assert (E : filter hasSheetExtension dropped = []).
    { induction H as [|x l Hx _ IH]; simpl; [reflexivity|].
      now rewrite Hx. }
    now rewrite E.
  - unfold handleFileInput in H. destruct targetFiles as [l|];
      [|discriminate].
    destruct l; [discriminate|]. injection H as <-. discriminate.
  - unfold handleFileInput in H. destruct targetFiles as [l|];
      [|discriminate].
    destruct l; [discriminate|]. now injection H as <-.
Qed.

(** X22.  Every card has an accent colour, one of the five; the colours
    repeat every five cards, and two neighbouring cards never have the
    same one. *)
Theorem accent_colours_cycle (index : nat) :
  (exists colour, ResultCard.accentColor index = Some colour /\
                  In colour ResultCard.borderColors) /\
  ResultCard.accentColor (index + 5) = ResultCard.accentColor index /\
  ResultCard.accentColor (S index) <> ResultCard.accentColor index.
Proof.
  unfold ResultCard.accentColor.
  change (List.length ResultCard.borderColors) with 5.
  assert (B : index mod 5 < 5) by (apply Nat.mod_upper_bound; lia).
  assert (N : S index mod 5 = (index mod 5 + 1) mod 5).
  { replace (S index) with (index + 1) by lia.
    now rewrite Nat.Div0.add_mod_idemp_l. }
  assert (P : (index + 5) mod 5 = index mod 5).
  { replace (index + 5) with (index + 1 * 5) by lia.
    apply Nat.Div0.mod_add. }
  rewrite N, P. clear N P.
  destruct (index mod 5) as [|[|[|[|[|m]]]]]; try lia;
    (split; [eexists; split; [reflexivity | simpl; tauto]
            | split; [reflexivity | discriminate]]).
Qed.

End ViewMore.

(* ================================================================== *)
(** ** The further properties at sample inputs *)
(* ================================================================== *)

Lemma notes_witness :
  ExcelParser.rowRecord "S" 9
    [CellStr "1"; CellStr "k"; CellStr "v"; CellStr ""; CellStr "n";
     CellNum "0" ""; CellNum "1" ".5"] "abc"
  = Some (mkRecord "S-9-abc" "S" "1" "k" "v"
            [("col_4", "n"); ("col_6", "1.5")]) /\
  NoDup (map fst [("col_4", "n"); ("col_6", "1.5")]) /\
  In ("col_6", "1.5") [("col_4", "n"); ("col_6", "1.5")].
Proof.
  assert (H : ExcelParser.rowRecord "S" 9
    [CellStr "1"; CellStr "k"; CellStr "v"; CellStr ""; CellStr "n";
     CellNum "0" ""; CellNum "1" ".5"] "abc"
    = Some (mkRecord "S-9-abc" "S" "1" "k" "v"
              [("col_4", "n"); ("col_6", "1.5")])) by reflexivity.
  split; [exact H|].
  destruct (notes_are_the_filled_extra_columns _ _ _ _ _ H) as [N I].
  split; [exact N|].
  apply I. exists 6. repeat split; simpl; lia.
Defined.

Lemma joined_file_lists_witness :
  ExcelParser.parseExcelFiles Examples.freshDraws 0 [Examples.book]
    = (Some [Examples.greeting; Examples.farewell], 2) /\
  ExcelParser.parseExcelFiles Examples.freshDraws 2 [Examples.bookUpper]
    = (Some [mkRecord "Sheet1-1-2" "Sheet1" "1" "greeting" "Hello World" [];
             mkRecord "Sheet1-2-3" "Sheet1" "2" "farewell" "Goodbye" []],
       4) /\
  ExcelParser.parseExcelFiles Examples.freshDraws 0
    ([Examples.book] ++ [Examples.bookUpper])
    = (Some ([Examples.greeting; Examples.farewell] ++
             [mkRecord "Sheet1-1-2" "Sheet1" "1" "greeting" "Hello World" [];
              mkRecord "Sheet1-2-3" "Sheet1" "2" "farewell" "Goodbye" []])%list,
       4).
Proof.
  assert (H1 : ExcelParser.parseExcelFiles Examples.freshDraws 0
                 [Examples.book]
               = (Some [Examples.greeting; Examples.farewell], 2))
    by reflexivity.
  assert (H2 : ExcelParser.parseExcelFiles Examples.freshDraws 2
                 [Examples.bookUpper]
    = (Some [mkRecord "Sheet1-1-2" "Sheet1" "1" "greeting" "Hello World" [];
             mkRecord "Sheet1-2-3" "Sheet1" "2" "farewell" "Goodbye" []],
       4)) by reflexivity.
  split; [exact H1|]. split; [exact H2|].
  exact (parse_of_joined_file_lists Examples.freshDraws 0 _ _ _ _ _ _ H1 H2).
Defined.

Lemma one_draw_witness :
  ExcelParser.parseExcelFiles Examples.freshDraws 0 [Examples.book]
    = (Some [Examples.greeting; Examples.farewell], 2) /\
  2 = 0 + List.length [Examples.greeting; Examples.farewell] /\
  List.length [Examples.greeting; Examples.farewell]
    <= Measure.fileRows [Examples.book].
Proof.
  assert (H : ExcelParser.parseExcelFiles Examples.freshDraws 0
                [Examples.book]
              = (Some [Examples.greeting; Examples.farewell], 2))
    by reflexivity.
  split; [exact H|].
  exact (one_draw_per_record Examples.freshDraws 0 _ _ _ H).
Defined.


Lemma sheet_name_witness :
  ExcelParser.parseExcelFiles Examples.freshDraws 0 [Examples.book]
    = (Some [Examples.greeting; Examples.farewell], 2) /\
  Forall (fun r => In (taskName r) (Measure.sheetNames [Examples.book]) /\
                   JS.startsWith (taskName r ++ "-") (id r) = true)
         [Examples.greeting; Examples.farewell].
Proof.
  assert (H : ExcelParser.parseExcelFiles Examples.freshDraws 0
                [Examples.book]
              = (Some [Examples.greeting; Examples.farewell], 2))
    by reflexivity.
  split; [exact H|].
  exact (records_carry_a_sheet_name Examples.freshDraws 0 _ _ _ H).
Defined.

Lemma separator_free_witness :
  RegExp.RegExp (App.exactMatchPattern (App.escapeRegExp "greet"))
    = Some (ExactRegex.exactRegex "greet") /\
  Measure.separatorFree "greeting" = true /\
  RegExp.test (ExactRegex.exactRegex "greet") "greeting"
    = Spec.sameIgnoringCase "greeting" "greet".
Proof.
  assert (H : RegExp.RegExp
                (App.exactMatchPattern (App.escapeRegExp "greet"))
              = Some (ExactRegex.exactRegex "greet")) by reflexivity.
  assert (F : Measure.separatorFree "greeting" = true) by reflexivity.
  split; [exact H|]. split; [exact F|].
  exact (separator_free_text_matches_only_whole "greet" _ "greeting" H F).
Defined.

Lemma query_case_witness :
  Measure.sameUpToAsciiCase (JS.trim "HELLO WORLD")
      (JS.trim " hello world ") = true /\
  fst (App.search Examples.everyRecord "HELLO WORLD"
         (App.run Examples.freshDraws Examples.everyRecord
            [App.FilesSelected [Examples.book]] App.initialState))
  = fst (App.search Examples.everyRecord " hello world "
           (App.run Examples.freshDraws Examples.everyRecord
              [App.FilesSelected [Examples.book]] App.initialState)).
Proof.
  assert (E : Measure.sameUpToAsciiCase (JS.trim "HELLO WORLD")
      (JS.trim " hello world ") = true) by reflexivity.
  split; [exact E|].
  exact (exact_matches_ignore_query_case Examples.everyRecord
           (App.run Examples.freshDraws Examples.everyRecord
              [App.FilesSelected [Examples.book]] App.initialState)
           "HELLO WORLD" " hello world " E).
Defined.

Lemma fuzzy_list_witness :
  JS.trim "Hello World" <> "" /\
  App.records
    (App.run Examples.freshDraws Examples.everyRecord
       [App.FilesSelected [Examples.book]] App.initialState) <> [] /\
  exists keep,
    snd (App.search Examples.everyRecord "Hello World"
           (App.run Examples.freshDraws Examples.everyRecord
              [App.FilesSelected [Examples.book]] App.initialState))
    = filter keep
        (Examples.everyRecord
           (App.records
              (App.run Examples.freshDraws Examples.everyRecord
                 [App.FilesSelected [Examples.book]] App.initialState))
           (JS.trim "Hello World")) /\
    forall item,
      keep item = true <->
      ~ In (id item)
          (map id
             (fst (App.search Examples.everyRecord "Hello World"
                     (App.run Examples.freshDraws Examples.everyRecord
                        [App.FilesSelected [Examples.book]]
                        App.initialState)))).
Proof.
  assert (Q : JS.trim "Hello World" <> "") by discriminate.
  assert (R : App.records
    (App.run Examples.freshDraws Examples.everyRecord
       [App.FilesSelected [Examples.book]] App.initialState) <> [])
    by discriminate.
  split; [exact Q|]. split; [exact R|].
  exact (fuzzy_list_is_the_index_result_deduplicated Examples.everyRecord
           (App.run Examples.freshDraws Examples.everyRecord
              [App.FilesSelected [Examples.book]] App.initialState)
           "Hello World" Q R).
Defined.

Lemma growth_witness :
  Measure.noReset
    [App.QueryTyped "x"; App.Debounced "x";
     App.FilesSelected [Examples.bookUpper]] = true /\
  exists added,
    App.records
      (App.run Examples.freshDraws Examples.everyRecord
         [App.QueryTyped "x"; App.Debounced "x";
          App.FilesSelected [Examples.bookUpper]]
         (App.run Examples.freshDraws Examples.everyRecord
            [App.FilesSelected [Examples.book]] App.initialState))
    = (App.records
         (App.run Examples.freshDraws Examples.everyRecord
            [App.FilesSelected [Examples.book]] App.initialState)
       ++ added)%list.
Proof.
  split; [reflexivity|].
  apply (records_only_grow_without_reset Examples.freshDraws
           Examples.everyRecord
           [App.QueryTyped "x"; App.Debounced "x";
            App.FilesSelected [Examples.bookUpper]]).
  reflexivity.
Defined.



(** The screen does not offer a second import on top of the first. *)
Example second_import_is_not_offered :
  Screen.offered Examples.freshDraws Examples.everyRecord
    [App.FilesSelected [Examples.book];
     App.FilesSelected [Examples.bookUpper]] App.initialState = false.
Proof. reflexivity. Qed.

Lemma browse_mode_witness :
  App.debouncedQuery
    (App.run Examples.freshDraws Examples.everyRecord
       [App.FilesSelected [Examples.book]; App.QueryTyped "he";
        App.Debounced "he"; App.QueryTyped " "; App.Debounced " "]
       App.initialState)
  = App.searchQuery
      (App.run Examples.freshDraws Examples.everyRecord
         [App.FilesSelected [Examples.book]; App.QueryTyped "he";
          App.Debounced "he"; App.QueryTyped " "; App.Debounced " "]
         App.initialState) /\
  Screen.isSearchMode
    (App.run Examples.freshDraws Examples.everyRecord
       [App.FilesSelected [Examples.book]; App.QueryTyped "he";
        App.Debounced "he"; App.QueryTyped " "; App.Debounced " "]
       App.initialState) = false /\
  App.exactMatches
    (App.run Examples.freshDraws Examples.everyRecord
       [App.FilesSelected [Examples.book]; App.QueryTyped "he";
        App.Debounced "he"; App.QueryTyped " "; App.Debounced " "]
       App.initialState) = [] /\
  App.fuzzyMatches
    (App.run Examples.freshDraws Examples.everyRecord
       [App.FilesSelected [Examples.book]; App.QueryTyped "he";
        App.Debounced "he"; App.QueryTyped " "; App.Debounced " "]
       App.initialState)
  = App.records
      (App.run Examples.freshDraws Examples.everyRecord
         [App.FilesSelected [Examples.book]; App.QueryTyped "he";
          App.Debounced "he"; App.QueryTyped " "; App.Debounced " "]
         App.initialState).
Proof.
  assert (D : App.debouncedQuery
    (App.run Examples.freshDraws Examples.everyRecord
       [App.FilesSelected [Examples.book]; App.QueryTyped "he";
        App.Debounced "he"; App.QueryTyped " "; App.Debounced " "]
       App.initialState)
    = App.searchQuery
        (App.run Examples.freshDraws Examples.everyRecord
           [App.FilesSelected [Examples.book]; App.QueryTyped "he";
            App.Debounced "he"; App.QueryTyped " "; App.Debounced " "]
           App.initialState)) by reflexivity.
  assert (M : Screen.isSearchMode
    (App.run Examples.freshDraws Examples.everyRecord
       [App.FilesSelected [Examples.book]; App.QueryTyped "he";
        App.Debounced "he"; App.QueryTyped " "; App.Debounced " "]
       App.initialState) = false) by reflexivity.
  split; [exact D|]. split; [exact M|].
  exact (browse_mode_shows_the_record_set Examples.freshDraws
           Examples.everyRecord _ D M).
Defined.
